(** * LAN8700 Ethernet PHY driver (CycloneTCP, drivers/phy/lan8700_driver.c)

    A shallow embedding of the driver and the properties of its link-state
    detection, negotiation decoding and register access.

    The driver talks to three collaborators that live outside the file: the
    MDIO transport of the NIC driver ([readPhyReg], [writePhyReg]), the host
    stack ([osSetEvent], [nicNotifyLinkChange], [updateMacConfig]) and the
    optional external interrupt line driver.  Every call to one of them is
    recorded, in program order, in an event log, and so is every store to the
    pending-event flag of the interface, which the host stack reads once it
    is signalled; what the transport answers to the n-th read is taken from
    an arbitrary reply sequence, so that each theorem holds whatever the
    hardware answers. *)

From Stdlib Require Import ZArith List Bool Lia String.
Import ListNotations.
Local Open Scope Z_scope.

(** ** Machine integers *)

(** Conversion to [uint8_t] and [uint16_t]: reduction modulo 2^8 and 2^16. *)
Definition to_uint8 (x : Z) : Z := x mod 2 ^ 8.
Definition to_uint16 (x : Z) : Z := x mod 2 ^ 16.

(** ** Types of the host stack used by the driver (core/net.h, core/nic.h) *)

Inductive error_t : Set := NO_ERROR | ERROR_FAILURE.

Inductive NicLinkSpeed : Set :=
  | NIC_LINK_SPEED_UNKNOWN
  | NIC_LINK_SPEED_10MBPS
  | NIC_LINK_SPEED_100MBPS
  | NIC_LINK_SPEED_1GBPS.

Inductive NicDuplexMode : Set :=
  | NIC_UNKNOWN_DUPLEX_MODE
  | NIC_HALF_DUPLEX_MODE
  | NIC_FULL_DUPLEX_MODE.

(** The external interrupt line driver is a table of three callbacks
    ([init], [enableIrq], [disableIrq]); the driver only tests the pointer
    against [NULL] and calls through it. *)
Inductive ExtIntDriver : Set := ExtIntLine.

(** The fields of [NetInterface] that the driver reads or writes.
    [extIntDriver = None] is the [NULL] pointer. *)
Record NetInterface : Set := mkNetInterface {
  phyAddr : Z;
  extIntDriver : option ExtIntDriver;
  linkState : bool;
  linkSpeed : NicLinkSpeed;
  duplexMode : NicDuplexMode;
  phyEvent : bool
}.

Definition set_linkState (b : bool) (i : NetInterface) : NetInterface :=
  mkNetInterface (phyAddr i) (extIntDriver i) b (linkSpeed i) (duplexMode i)
    (phyEvent i).

Definition set_linkSpeed (s : NicLinkSpeed) (i : NetInterface) : NetInterface :=
  mkNetInterface (phyAddr i) (extIntDriver i) (linkState i) s (duplexMode i)
    (phyEvent i).

Definition set_duplexMode (d : NicDuplexMode) (i : NetInterface) : NetInterface :=
  mkNetInterface (phyAddr i) (extIntDriver i) (linkState i) (linkSpeed i) d
    (phyEvent i).

Definition set_phyEvent (b : bool) (i : NetInterface) : NetInterface :=
  mkNetInterface (phyAddr i) (extIntDriver i) (linkState i) (linkSpeed i)
    (duplexMode i) b.

(** ** Constants of lan8700_driver.h and of the build

    The macros of the header are the fields of a record, and every
    definition below is parametric in it: no property depends on the values
    the header gives them, beyond what is stated as a hypothesis.  The
    three booleans say whether the trace macro of that level expands to an
    output statement at the configured [TRACE_LEVEL] (it expands to nothing
    otherwise, arguments included). *)
Record Lan8700Header : Set := mkHeader {
  LAN8700_PHY_ADDR : Z;
  LAN8700_PHY_REG_BMCR : Z;
  LAN8700_PHY_REG_BMSR : Z;
  LAN8700_PHY_REG_ISR : Z;
  LAN8700_PHY_REG_IMR : Z;
  LAN8700_PHY_REG_PSCSR : Z;
  BMCR_RESET : Z;
  BMSR_LINK_STATUS : Z;
  IMR_AN_COMPLETE : Z;
  IMR_LINK_DOWN : Z;
  PSCSR_HCDSPEED_MASK : Z;
  PSCSR_HCDSPEED_10BT : Z;
  PSCSR_HCDSPEED_10BT_FD : Z;
  PSCSR_HCDSPEED_100BTX : Z;
  PSCSR_HCDSPEED_100BTX_FD : Z;
  trace_info : bool;
  trace_warning : bool;
  trace_debug : bool
}.

(** The register map and bit layout of the LAN8700 data sheet, with address
    0 as the default and every trace level on. *)
Definition lan8700_datasheet : Lan8700Header :=
  {| LAN8700_PHY_ADDR := 0;
     LAN8700_PHY_REG_BMCR := 0;
     LAN8700_PHY_REG_BMSR := 1;
     LAN8700_PHY_REG_ISR := 29;
     LAN8700_PHY_REG_IMR := 30;
     LAN8700_PHY_REG_PSCSR := 31;
     BMCR_RESET := Z.shiftl 1 15;
     BMSR_LINK_STATUS := Z.shiftl 1 2;
     IMR_AN_COMPLETE := Z.shiftl 1 6;
     IMR_LINK_DOWN := Z.shiftl 1 4;
     PSCSR_HCDSPEED_MASK := Z.shiftl 7 2;
     PSCSR_HCDSPEED_10BT := Z.shiftl 1 2;
     PSCSR_HCDSPEED_10BT_FD := Z.shiftl 5 2;
     PSCSR_HCDSPEED_100BTX := Z.shiftl 2 2;
     PSCSR_HCDSPEED_100BTX_FD := Z.shiftl 6 2;
     trace_info := true;
     trace_warning := true;
     trace_debug := true |}.

(** ** What the driver does that its environment sees *)

(** One constructor per external call, and one for the store to
    [interface->phyEvent].  A read carries the value the transport returned;
    the two host callbacks that receive the interface pointer carry the
    interface as it is at the call; a store to the flag carries the value
    stored, and its place in the log is its place among the calls. *)
Inductive Event : Set :=
  | ExtIntInit
  | ExtIntEnableIrq
  | ExtIntDisableIrq
  | WritePhyReg (phy reg data : Z)
  | ReadPhyReg (phy reg value : Z)
  | OsSetEvent
  | StorePhyEvent (b : bool)
  | UpdateMacConfig (i : NetInterface)
  | NicNotifyLinkChange (i : NetInterface)
  | TraceInfo (msg : string)
  | TraceWarning (msg : string)
  | TraceDebug (msg : string)
  | TraceDebugReg (i value : Z).

(** The state a driver call runs in: the interface, the replies of the
    transport ([mdio n] answers the n-th read since the start), the number of
    reads served so far, and the log of external calls and flag stores,
    oldest first. *)
Record World : Type := mkWorld {
  netif : NetInterface;
  mdio : nat -> Z;
  mdioReads : nat;
  events : list Event
}.

(** ** The driver monad: state passing over [World] *)

Definition Drv (A : Type) : Type := World -> A * World.

Definition ret {A : Type} (a : A) : Drv A := fun w => (a, w).

Definition bind {A B : Type} (m : Drv A) (k : A -> Drv B) : Drv B :=
  fun w => let (a, w') := m w in k a w'.

Declare Scope drv_scope.
Delimit Scope drv_scope with drv.
Notation "x <- m ;; k" := (bind m (fun x => k))
  (at level 61, m at next level, right associativity) : drv_scope.
Notation "m ;;; k" := (bind m (fun _ => k))
  (at level 61, right associativity) : drv_scope.
Local Open Scope drv_scope.

Definition interface : Drv NetInterface := fun w => (netif w, w).

Definition modify (f : NetInterface -> NetInterface) : Drv unit :=
  fun w => (tt, mkWorld (f (netif w)) (mdio w) (mdioReads w) (events w)).

Definition call (e : Event) : Drv unit :=
  fun w => (tt, mkWorld (netif w) (mdio w) (mdioReads w) (events w ++ [e])).

Definition when (b : bool) (m : Drv unit) : Drv unit :=
  if b then m else ret tt.

(** [interface->nicDriver->readPhyReg(phyAddr, address)]: the transport
    answers with the next reply, a [uint16_t]. *)
Definition nicDriver_readPhyReg (phy reg : Z) : Drv Z :=
  fun w =>
    let v := to_uint16 (mdio w (mdioReads w)) in
    (v, mkWorld (netif w) (mdio w) (S (mdioReads w))
          (events w ++ [ReadPhyReg phy reg v])).

(** [interface->nicDriver->writePhyReg(phyAddr, address, data)]. *)
Definition nicDriver_writePhyReg (phy reg data : Z) : Drv unit :=
  call (WritePhyReg phy reg data).

(** [interface->nicDriver->updateMacConfig(interface)]. *)
Definition nicDriver_updateMacConfig : Drv unit :=
  i <- interface ;; call (UpdateMacConfig i).

(** [nicNotifyLinkChange(interface)]. *)
Definition nicNotifyLinkChange : Drv unit :=
  i <- interface ;; call (NicNotifyLinkChange i).

(** [osSetEvent(&netEvent)]. *)
Definition osSetEvent : Drv unit := call OsSetEvent.

(** [interface->phyEvent = b]: the field is written and the store takes its
    place in the log. *)
Definition store_phyEvent (b : bool) : Drv unit :=
  modify (set_phyEvent b) ;;; call (StorePhyEvent b).

Section Driver.

Variable K : Lan8700Header.

(** The trace macros.  A message is the string literal as the source writes
    it, escape sequences left as written. *)
Definition TRACE_INFO (msg : string) : Drv unit :=
  when (trace_info K) (call (TraceInfo msg)).

Definition TRACE_WARNING (msg : string) : Drv unit :=
  when (trace_warning K) (call (TraceWarning msg)).

(** ** Register access *)

(** [lan8700WritePhyReg(interface, address, data)].  The parameters are a
    [uint8_t] and a [uint16_t], and so is the local [phyAddr]. *)
Definition lan8700WritePhyReg (address data : Z) : Drv unit :=
  let address := to_uint8 address in
  let data := to_uint16 data in
  i <- interface ;;
  let phy :=
    if phyAddr i <? 32 then to_uint8 (phyAddr i)
    else to_uint8 (LAN8700_PHY_ADDR K) in
  nicDriver_writePhyReg phy address data.

(** [lan8700ReadPhyReg(interface, address)]. *)
Definition lan8700ReadPhyReg (address : Z) : Drv Z :=
  let address := to_uint8 address in
  i <- interface ;;
  let phy :=
    if phyAddr i <? 32 then to_uint8 (phyAddr i)
    else to_uint8 (LAN8700_PHY_ADDR K) in
  nicDriver_readPhyReg phy address.

(** One turn of the loop of [lan8700DumpPhyReg]: the read is an argument of
    [TRACE_DEBUG] and is only performed when the macro expands. *)
Definition dump_one (i : Z) : Drv unit :=
  if trace_debug K then
    v <- lan8700ReadPhyReg i ;; call (TraceDebugReg i v)
  else ret tt.

Fixpoint dump_from (i : Z) (n : nat) : Drv unit :=
  match n with
  | O => ret tt
  | S n' => dump_one i ;;; dump_from (to_uint8 (i + 1)) n'
  end.

(** [lan8700DumpPhyReg(interface)]: [for(i = 0; i < 32; i++)], then a line
    feed. *)
Definition lan8700DumpPhyReg : Drv unit :=
  dump_from 0 32 ;;;
  when (trace_debug K) (call (TraceDebug "\r\n")).

(** ** Initialization *)

(** [while(lan8700ReadPhyReg(interface, LAN8700_PHY_REG_BMCR) & BMCR_RESET);]
    The loop has no bound in the source; here it runs for at most [fuel]
    reads and yields [None] when the reset bit is still set after them. *)
Fixpoint wait_reset (fuel : nat) (w : World) : option (unit * World) :=
  match fuel with
  | O => None
  | S fuel' =>
      let (v, w') := lan8700ReadPhyReg (LAN8700_PHY_REG_BMCR K) w in
      if Z.land v (BMCR_RESET K) =? 0 then Some (tt, w')
      else wait_reset fuel' w'
  end.

(** [lan8700Init(interface)]. *)
Definition lan8700Init (fuel : nat) (w : World) : option (error_t * World) :=
  let (_, w1) :=
    (TRACE_INFO "Initializing LAN8700...\r\n" ;;;
     i <- interface ;;
     match extIntDriver i with
     | Some _ => call ExtIntInit
     | None => ret tt
     end ;;;
     lan8700WritePhyReg (LAN8700_PHY_REG_BMCR K) (BMCR_RESET K)) w in
  match wait_reset fuel w1 with
  | None => None
  | Some (_, w2) =>
      Some
        ((lan8700DumpPhyReg ;;;
          lan8700WritePhyReg (LAN8700_PHY_REG_IMR K)
            (Z.lor (IMR_AN_COMPLETE K) (IMR_LINK_DOWN K)) ;;;
          store_phyEvent true ;;;
          osSetEvent ;;;
          ret NO_ERROR) w2)
  end.

(** ** Timer handler *)

(** [lan8700Tick(interface)]. *)
Definition lan8700Tick : Drv unit :=
  i <- interface ;;
  match extIntDriver i with
  | None =>
      value <- lan8700ReadPhyReg (LAN8700_PHY_REG_BMSR K) ;;
      let linkState' := negb (Z.land value (BMSR_LINK_STATUS K) =? 0) in
      i <- interface ;;
      if linkState' && negb (linkState i) then
        store_phyEvent true ;;;
        osSetEvent
      else if negb linkState' && linkState i then
        store_phyEvent true ;;;
        osSetEvent
      else ret tt
  | Some _ => ret tt
  end.

(** ** Interrupt line *)

(** [lan8700EnableIrq(interface)]. *)
Definition lan8700EnableIrq : Drv unit :=
  i <- interface ;;
  match extIntDriver i with
  | Some _ => call ExtIntEnableIrq
  | None => ret tt
  end.

(** [lan8700DisableIrq(interface)]. *)
Definition lan8700DisableIrq : Drv unit :=
  i <- interface ;;
  match extIntDriver i with
  | Some _ => call ExtIntDisableIrq
  | None => ret tt
  end.

(** ** Event handler *)

(** The [switch(value & PSCSR_HCDSPEED_MASK)] of the handler: the first
    label equal to the selector is taken, [default] otherwise. *)
Definition switch_hcdspeed (value : Z) : Drv unit :=
  let sel := Z.land value (PSCSR_HCDSPEED_MASK K) in
  if sel =? PSCSR_HCDSPEED_10BT K then
    modify (set_linkSpeed NIC_LINK_SPEED_10MBPS) ;;;
    modify (set_duplexMode NIC_HALF_DUPLEX_MODE)
  else if sel =? PSCSR_HCDSPEED_10BT_FD K then
    modify (set_linkSpeed NIC_LINK_SPEED_10MBPS) ;;;
    modify (set_duplexMode NIC_FULL_DUPLEX_MODE)
  else if sel =? PSCSR_HCDSPEED_100BTX K then
    modify (set_linkSpeed NIC_LINK_SPEED_100MBPS) ;;;
    modify (set_duplexMode NIC_HALF_DUPLEX_MODE)
  else if sel =? PSCSR_HCDSPEED_100BTX_FD K then
    modify (set_linkSpeed NIC_LINK_SPEED_100MBPS) ;;;
    modify (set_duplexMode NIC_FULL_DUPLEX_MODE)
  else
    TRACE_WARNING "Invalid Duplex mode\r\n".

(** [lan8700EventHandler(interface)]. *)
Definition lan8700EventHandler : Drv unit :=
  value <- lan8700ReadPhyReg (LAN8700_PHY_REG_ISR K) ;;
  if negb (Z.land value (Z.lor (IMR_AN_COMPLETE K) (IMR_LINK_DOWN K)) =? 0)
  then
    value <- lan8700ReadPhyReg (LAN8700_PHY_REG_BMSR K) ;;
    value <- lan8700ReadPhyReg (LAN8700_PHY_REG_BMSR K) ;;
    (if negb (Z.land value (BMSR_LINK_STATUS K) =? 0) then
       value <- lan8700ReadPhyReg (LAN8700_PHY_REG_PSCSR K) ;;
       switch_hcdspeed value ;;;
       modify (set_linkState true) ;;;
       nicDriver_updateMacConfig
     else
       modify (set_linkState false)) ;;;
    nicNotifyLinkChange
  else ret tt.

End Driver.

(** ** Vocabulary of the statements *)

(** The value the [k]-th coming read returns, counted from the state [w]. *)
Definition reply (w : World) (k : nat) : Z :=
  to_uint16 (mdio w (k + mdioReads w)).

(** The same world, except that the [k]-th coming read returns [x]. *)
Definition with_reply (k : nat) (x : Z) (w : World) : World :=
  mkWorld (netif w)
    (fun n => if Nat.eqb n (k + mdioReads w) then x else mdio w n)
    (mdioReads w) (events w).

(** The external calls made between the states [w] and [w']. *)
Definition new_events (w w' : World) : list Event :=
  skipn (List.length (events w)) (events w').

(** The state a driver call ends in. *)
Definition after {A : Type} (m : Drv A) (w : World) : World := snd (m w).

Definition is_read (e : Event) : bool :=
  match e with ReadPhyReg _ _ _ => true | _ => false end.

Definition is_notifyLinkChange (e : Event) : bool :=
  match e with NicNotifyLinkChange _ => true | _ => false end.

Definition is_updateMacConfig (e : Event) : bool :=
  match e with UpdateMacConfig _ => true | _ => false end.

Definition count (p : Event -> bool) (l : list Event) : nat :=
  List.length (filter p l).

(** The bus address the code computes in both accessors. *)
Definition busAddress (K : Lan8700Header) (i : NetInterface) : Z :=
  if phyAddr i <? 32 then to_uint8 (phyAddr i)
  else to_uint8 (LAN8700_PHY_ADDR K).

(** The log entry of the [k]-th coming read when it reads register [r]. *)
Definition read_of (K : Lan8700Header) (w : World) (r : Z) (k : nat) : Event :=
  ReadPhyReg (busAddress K (netif w)) (to_uint8 r) (reply w k).

(** Specification, section 4.1: [resolveAddress] returns the configured
    address when it is in the range 0..31 and the fixed default otherwise. *)
Definition resolveAddress (K : Lan8700Header) (i : NetInterface) : Z :=
  if (0 <=? phyAddr i) && (phyAddr i <=? 31) then phyAddr i
  else LAN8700_PHY_ADDR K.

(** A relevant interrupt: auto-negotiation complete or link down. *)
Definition relevant_irq (K : Lan8700Header) (v : Z) : Prop :=
  Z.land v (IMR_AN_COMPLETE K) <> 0 \/ Z.land v (IMR_LINK_DOWN K) <> 0.

(** The link-status bit of a BMSR value. *)
Definition link_status (K : Lan8700Header) (v : Z) : bool :=
  negb (Z.land v (BMSR_LINK_STATUS K) =? 0).

(** The mode field of a PSCSR value. *)
Definition hcdspeed (K : Lan8700Header) (v : Z) : Z :=
  Z.land v (PSCSR_HCDSPEED_MASK K).

(** The four labels of the [switch], in the order of the source.  C requires
    the labels of one [switch] to be pairwise different. *)
Definition case_labels (K : Lan8700Header) : list Z :=
  [PSCSR_HCDSPEED_10BT K; PSCSR_HCDSPEED_10BT_FD K;
   PSCSR_HCDSPEED_100BTX K; PSCSR_HCDSPEED_100BTX_FD K].

(** A cold-started interface without interrupt line, on a bus that answers
    0 to every read. *)
Definition cold_interface : NetInterface :=
  mkNetInterface 0 None false NIC_LINK_SPEED_UNKNOWN NIC_UNKNOWN_DUPLEX_MODE
    false.

(** The same interface with an external interrupt line driver. *)
Definition irq_interface : NetInterface :=
  mkNetInterface 0 (Some ExtIntLine) false NIC_LINK_SPEED_UNKNOWN
    NIC_UNKNOWN_DUPLEX_MODE false.

Definition world_of (i : NetInterface) (replies : list Z) : World :=
  mkWorld i (fun n => nth n replies 0) 0 [].

(** The reset bit of BMCR as the [k]-th coming read returns it. *)
Definition reset_bit (K : Lan8700Header) (w : World) (k : nat) : Z :=
  Z.land (reply w k) (BMCR_RESET K).

(** What the [switch] on the mode field [v] makes of the interface [i], and
    what it logs: the code itself, run on an otherwise empty world. *)
Definition negotiated (K : Lan8700Header) (v : Z) (i : NetInterface)
  : NetInterface :=
  netif (after (switch_hcdspeed K v) (mkWorld i (fun _ => 0) 0 [])).

Definition switch_log (K : Lan8700Header) (v : Z) (i : NetInterface)
  : list Event :=
  events (after (switch_hcdspeed K v) (mkWorld i (fun _ => 0) 0 [])).

(** The log of the register dump when it starts at the [off]-th coming
    read. *)
Definition dump_events (K : Lan8700Header) (w : World) (off : nat)
  : list Event :=
  if trace_debug K then
    flat_map
      (fun j =>
         [read_of K w (Z.of_nat j) (off + j);
          TraceDebugReg (Z.of_nat j) (reply w (off + j))])
      (seq 0 32)
    ++ [TraceDebug "\r\n"]
  else [].

(** The log of [lan8700Init] when the reset bit reads as set [n] times and
    then as clear, in the order of the source. *)
Definition init_events (K : Lan8700Header) (w : World) (n : nat) : list Event :=
  (if trace_info K then [TraceInfo "Initializing LAN8700...\r\n"] else []) ++
  match extIntDriver (netif w) with Some _ => [ExtIntInit] | None => [] end ++
  [WritePhyReg (busAddress K (netif w)) (to_uint8 (LAN8700_PHY_REG_BMCR K))
     (to_uint16 (BMCR_RESET K))] ++
  map (read_of K w (LAN8700_PHY_REG_BMCR K)) (seq 0 (S n)) ++
  dump_events K w (S n) ++
  [WritePhyReg (busAddress K (netif w)) (to_uint8 (LAN8700_PHY_REG_IMR K))
     (to_uint16 (Z.lor (IMR_AN_COMPLETE K) (IMR_LINK_DOWN K)));
   StorePhyEvent true;
   OsSetEvent].

(** Specification, section 4.4: the same steps in the order the
    specification lists them, with the register dump as the last one. *)
Definition init_events_spec_order (K : Lan8700Header) (w : World) (n : nat)
  : list Event :=
  (if trace_info K then [TraceInfo "Initializing LAN8700...\r\n"] else []) ++
  match extIntDriver (netif w) with Some _ => [ExtIntInit] | None => [] end ++
  [WritePhyReg (busAddress K (netif w)) (to_uint8 (LAN8700_PHY_REG_BMCR K))
     (to_uint16 (BMCR_RESET K))] ++
  map (read_of K w (LAN8700_PHY_REG_BMCR K)) (seq 0 (S n)) ++
  [WritePhyReg (busAddress K (netif w)) (to_uint8 (LAN8700_PHY_REG_IMR K))
     (to_uint16 (Z.lor (IMR_AN_COMPLETE K) (IMR_LINK_DOWN K)));
   StorePhyEvent true;
   OsSetEvent] ++
  dump_events K w (S n).

Definition is_write (e : Event) : bool :=
  match e with WritePhyReg _ _ _ => true | _ => false end.

(** A store to the pending-event flag. *)
Definition is_flag_store (e : Event) : bool :=
  match e with StorePhyEvent _ => true | _ => false end.

(** A call to the MDIO transport. *)
Definition is_bus (e : Event) : bool := is_read e || is_write e.

(** A call that, when it goes to the transport, goes to the address [a]. *)
Definition bus_to (a : Z) (e : Event) : Prop :=
  match e with
  | ReadPhyReg p _ _ | WritePhyReg p _ _ => p = a
  | _ => True
  end.

Ltac run_drv :=
  cbv [lan8700EventHandler lan8700Tick lan8700EnableIrq lan8700DisableIrq
       lan8700ReadPhyReg lan8700WritePhyReg nicDriver_readPhyReg
       nicDriver_writePhyReg nicDriver_updateMacConfig nicNotifyLinkChange
       osSetEvent store_phyEvent TRACE_INFO TRACE_WARNING bind ret interface
       modify call
       when after read_of reply link_status netif mdio mdioReads events
       fst snd Nat.add].

(** Takes the next comparison of the switch to be one with another label. *)
Ltac other_label :=
  match goal with
  | |- context [?a =? ?b] =>
      replace (a =? b) with false
        by (symmetry; apply Z.eqb_neq; intuition congruence)
  end.

(** ** Bit tests *)

Lemma land_lor_eq_0 (v a b : Z) :
  Z.land v (Z.lor a b) = 0 <-> Z.land v a = 0 /\ Z.land v b = 0.
Proof.
  rewrite Z.land_lor_distr_r. apply Z.lor_eq_0_iff.
Qed.

Lemma relevant_irq_test (K : Lan8700Header) (v : Z) :
  (Z.land v (Z.lor (IMR_AN_COMPLETE K) (IMR_LINK_DOWN K)) =? 0) = false
  <-> relevant_irq K v.
Proof.
  unfold relevant_irq. rewrite Z.eqb_neq, land_lor_eq_0.
  destruct (Z.eq_dec (Z.land v (IMR_AN_COMPLETE K)) 0);
    destruct (Z.eq_dec (Z.land v (IMR_LINK_DOWN K)) 0); intuition.
Qed.

Lemma not_relevant_irq_test (K : Lan8700Header) (v : Z) :
  (Z.land v (Z.lor (IMR_AN_COMPLETE K) (IMR_LINK_DOWN K)) =? 0) = true
  <-> ~ relevant_irq K v.
Proof.
  rewrite <- relevant_irq_test. destruct (_ =? 0); intuition congruence.
Qed.

Lemma relevant_irq_dec (K : Lan8700Header) (v : Z) :
  relevant_irq K v \/ ~ relevant_irq K v.
Proof.
  destruct (Z.land v (Z.lor (IMR_AN_COMPLETE K) (IMR_LINK_DOWN K)) =? 0) eqn:E.
  - right. apply not_relevant_irq_test, E.
  - left. apply relevant_irq_test, E.
Qed.

(** ** The event log *)

Lemma new_events_app (w w' : World) (l : list Event) :
  events w' = events w ++ l -> new_events w w' = l.
Proof.
  unfold new_events. intros ->.
  rewrite skipn_app, skipn_all, Nat.sub_diag. reflexivity.
Qed.

(** ** Running the accessors *)

Lemma lan8700ReadPhyReg_run (K : Lan8700Header) (r : Z) (w : World) :
  lan8700ReadPhyReg K r w =
  (reply w 0,
   mkWorld (netif w) (mdio w) (S (mdioReads w))
     (events w ++ [read_of K w r 0])).
Proof. reflexivity. Qed.

Lemma lan8700WritePhyReg_run (K : Lan8700Header) (r d : Z) (w : World) :
  lan8700WritePhyReg K r d w =
  (tt,
   mkWorld (netif w) (mdio w) (mdioReads w)
     (events w ++
      [WritePhyReg (busAddress K (netif w)) (to_uint8 r) (to_uint16 d)])).
Proof. reflexivity. Qed.

Lemma resolveAddress_busAddress (K : Lan8700Header) (i : NetInterface) :
  0 <= phyAddr i -> 0 <= LAN8700_PHY_ADDR K <= 255 ->
  busAddress K i = resolveAddress K i.
Proof.
  intros Hi HK. unfold busAddress, resolveAddress, to_uint8.
  destruct (Z.ltb_spec (phyAddr i) 32) as [Hlt | Hge].
  - replace (0 <=? phyAddr i) with true by (symmetry; apply Z.leb_le; lia).
    replace (phyAddr i <=? 31) with true by (symmetry; apply Z.leb_le; lia).
    simpl. apply Z.mod_small. lia.
  - replace (phyAddr i <=? 31) with false by (symmetry; apply Z.leb_gt; lia).
    rewrite andb_false_r. apply Z.mod_small. lia.
Qed.

(** ** Running the switch on the negotiated mode *)

Lemma case_labels_distinct (K : Lan8700Header) :
  NoDup (case_labels K) ->
  PSCSR_HCDSPEED_10BT K <> PSCSR_HCDSPEED_10BT_FD K /\
  PSCSR_HCDSPEED_10BT K <> PSCSR_HCDSPEED_100BTX K /\
  PSCSR_HCDSPEED_10BT K <> PSCSR_HCDSPEED_100BTX_FD K /\
  PSCSR_HCDSPEED_10BT_FD K <> PSCSR_HCDSPEED_100BTX K /\
  PSCSR_HCDSPEED_10BT_FD K <> PSCSR_HCDSPEED_100BTX_FD K /\
  PSCSR_HCDSPEED_100BTX K <> PSCSR_HCDSPEED_100BTX_FD K.
Proof.
  unfold case_labels. intros H.
  inversion H as [| a l Ha H1]; subst.
  inversion H1 as [| b l' Hb H2]; subst.
  inversion H2 as [| c l'' Hc H3]; subst.
  simpl in Ha, Hb, Hc. intuition.
Qed.

Lemma switch_run (K : Lan8700Header) (v : Z) (w : World) :
  switch_hcdspeed K v w =
  (tt,
   mkWorld (negotiated K v (netif w)) (mdio w) (mdioReads w)
     (events w ++ switch_log K v (netif w))).
Proof.
  destruct w as [i m n l].
  unfold negotiated, switch_log, switch_hcdspeed. run_drv.
  repeat match goal with
  | |- context [if ?b then _ else _] => destruct b
  end; cbn [app]; rewrite ?app_nil_r; reflexivity.
Qed.

Section Switch.

Variable K : Lan8700Header.
Variable v : Z.
Variable i : NetInterface.

Lemma negotiated_10BT :
  hcdspeed K v = PSCSR_HCDSPEED_10BT K ->
  negotiated K v i =
    set_duplexMode NIC_HALF_DUPLEX_MODE (set_linkSpeed NIC_LINK_SPEED_10MBPS i)
  /\ switch_log K v i = [].
Proof.
  unfold hcdspeed, negotiated, switch_log, switch_hcdspeed. intros ->.
  rewrite Z.eqb_refl. split; reflexivity.
Qed.

Lemma negotiated_10BT_FD :
  NoDup (case_labels K) ->
  hcdspeed K v = PSCSR_HCDSPEED_10BT_FD K ->
  negotiated K v i =
    set_duplexMode NIC_FULL_DUPLEX_MODE (set_linkSpeed NIC_LINK_SPEED_10MBPS i)
  /\ switch_log K v i = [].
Proof.
  intros Hd. apply case_labels_distinct in Hd.
  unfold hcdspeed, negotiated, switch_log, switch_hcdspeed. intros ->.
  other_label. rewrite Z.eqb_refl. split; reflexivity.
Qed.

Lemma negotiated_100BTX :
  NoDup (case_labels K) ->
  hcdspeed K v = PSCSR_HCDSPEED_100BTX K ->
  negotiated K v i =
    set_duplexMode NIC_HALF_DUPLEX_MODE (set_linkSpeed NIC_LINK_SPEED_100MBPS i)
  /\ switch_log K v i = [].
Proof.
  intros Hd. apply case_labels_distinct in Hd.
  unfold hcdspeed, negotiated, switch_log, switch_hcdspeed. intros ->.
  do 2 other_label. rewrite Z.eqb_refl. split; reflexivity.
Qed.

Lemma negotiated_100BTX_FD :
  NoDup (case_labels K) ->
  hcdspeed K v = PSCSR_HCDSPEED_100BTX_FD K ->
  negotiated K v i =
    set_duplexMode NIC_FULL_DUPLEX_MODE (set_linkSpeed NIC_LINK_SPEED_100MBPS i)
  /\ switch_log K v i = [].
Proof.
  intros Hd. apply case_labels_distinct in Hd.
  unfold hcdspeed, negotiated, switch_log, switch_hcdspeed. intros ->.
  do 3 other_label. rewrite Z.eqb_refl. split; reflexivity.
Qed.

Lemma negotiated_default :
  ~ In (hcdspeed K v) (case_labels K) ->
  negotiated K v i = i /\
  switch_log K v i =
    if trace_warning K then [TraceWarning "Invalid Duplex mode\r\n"] else [].
Proof.
  unfold hcdspeed, case_labels, negotiated, switch_log, switch_hcdspeed.
  simpl. intros Hn.
  repeat match goal with
  | |- context [?a =? ?b] =>
      destruct (Z.eqb_spec a b); [exfalso; apply Hn; intuition congruence |]
  end.
  run_drv. destruct (trace_warning K); split; reflexivity.
Qed.

(** Whatever the mode field, the switch leaves the address, the interrupt
    line, the link state and the event flag alone, and calls neither the bus
    nor the host. *)
Lemma negotiated_frame :
  phyAddr (negotiated K v i) = phyAddr i /\
  extIntDriver (negotiated K v i) = extIntDriver i /\
  linkState (negotiated K v i) = linkState i /\
  phyEvent (negotiated K v i) = phyEvent i /\
  count is_read (switch_log K v i) = 0%nat /\
  count is_updateMacConfig (switch_log K v i) = 0%nat /\
  count is_notifyLinkChange (switch_log K v i) = 0%nat.
Proof.
  unfold negotiated, switch_log, switch_hcdspeed. run_drv.
  repeat match goal with
  | |- context [if ?b then _ else _] => destruct b
  end; repeat split.
Qed.

End Switch.

(** ** Running the event handler *)

Lemma handler_idle (K : Lan8700Header) (w : World) :
  ~ relevant_irq K (reply w 0) ->
  lan8700EventHandler K w =
  (tt,
   mkWorld (netif w) (mdio w) (S (mdioReads w))
     (events w ++ [read_of K w (LAN8700_PHY_REG_ISR K) 0])).
Proof.
  intros H. apply not_relevant_irq_test in H.
  destruct w as [i m n l]. revert H. run_drv. intros ->. reflexivity.
Qed.

Lemma handler_down (K : Lan8700Header) (w : World) :
  relevant_irq K (reply w 0) ->
  link_status K (reply w 2) = false ->
  lan8700EventHandler K w =
  (tt,
   mkWorld (set_linkState false (netif w)) (mdio w) (3 + mdioReads w)
     (events w ++
      [read_of K w (LAN8700_PHY_REG_ISR K) 0;
       read_of K w (LAN8700_PHY_REG_BMSR K) 1;
       read_of K w (LAN8700_PHY_REG_BMSR K) 2;
       NicNotifyLinkChange (set_linkState false (netif w))])).
Proof.
  intros H Hl. apply relevant_irq_test in H.
  destruct w as [i m n l]. revert H Hl. run_drv. intros -> Hl.
  cbn [negb]. rewrite Hl. rewrite <- !app_assoc. reflexivity.
Qed.

Lemma handler_up (K : Lan8700Header) (w : World) :
  relevant_irq K (reply w 0) ->
  link_status K (reply w 2) = true ->
  let i' := set_linkState true (negotiated K (reply w 3) (netif w)) in
  lan8700EventHandler K w =
  (tt,
   mkWorld i' (mdio w) (4 + mdioReads w)
     (events w ++
      [read_of K w (LAN8700_PHY_REG_ISR K) 0;
       read_of K w (LAN8700_PHY_REG_BMSR K) 1;
       read_of K w (LAN8700_PHY_REG_BMSR K) 2;
       read_of K w (LAN8700_PHY_REG_PSCSR K) 3] ++
      switch_log K (reply w 3) (netif w) ++
      [UpdateMacConfig i'; NicNotifyLinkChange i'])).
Proof.
  intros H Hl. apply relevant_irq_test in H.
  destruct w as [i m n l]. revert H Hl. run_drv. intros -> Hl.
  cbn [negb]. rewrite Hl. rewrite switch_run. run_drv.
  rewrite <- !app_assoc. reflexivity.
Qed.

(** ** Running the initialization *)

Lemma reply_served (w : World) (k j : nat) (l : list Event) :
  reply (mkWorld (netif w) (mdio w) (k + mdioReads w) l) j = reply w (k + j).
Proof.
  unfold reply. cbn [mdio mdioReads]. do 2 f_equal. lia.
Qed.

Lemma read_of_served (K : Lan8700Header) (w : World) (k j : nat)
    (l : list Event) (r : Z) :
  read_of K (mkWorld (netif w) (mdio w) (k + mdioReads w) l) r j =
  read_of K w r (k + j).
Proof.
  unfold read_of. rewrite reply_served. reflexivity.
Qed.

Section Init.

Variable K : Lan8700Header.

Lemma wait_reset_run (n : nat) :
  forall (fuel : nat) (w : World),
    (n < fuel)%nat ->
    (forall k, (k < n)%nat -> reset_bit K w k <> 0) ->
    reset_bit K w n = 0 ->
    wait_reset K fuel w =
    Some (tt,
          mkWorld (netif w) (mdio w) (S n + mdioReads w)
            (events w ++
             map (read_of K w (LAN8700_PHY_REG_BMCR K)) (seq 0 (S n)))).
Proof.
  unfold reset_bit.
  induction n as [| n IH]; intros fuel w Hfuel Hset Hclr;
    (destruct fuel as [| fuel]; [lia |]);
    cbn [wait_reset]; rewrite lan8700ReadPhyReg_run.
  - destruct (Z.eqb_spec (Z.land (reply w 0) (BMCR_RESET K)) 0) as [_ | Hne];
      [reflexivity | contradiction].
  - destruct (Z.eqb_spec (Z.land (reply w 0) (BMCR_RESET K)) 0) as [He | _].
    { exfalso. apply (Hset 0%nat); [lia | exact He]. }
    change (S (mdioReads w)) with (1 + mdioReads w)%nat.
    rewrite IH; cbn [netif mdio mdioReads events].
    + do 2 f_equal. f_equal; [lia |].
      rewrite <- app_assoc. f_equal. cbn [app].
      change (seq 0 (S (S n))) with (0%nat :: seq 1 (S n)).
      rewrite <- seq_shift. cbn [map]. rewrite map_map. f_equal.
      apply map_ext. intros j.
      rewrite (read_of_served K w 1 j). reflexivity.
    + lia.
    + intros k Hk. rewrite (reply_served w 1 k). apply Hset. lia.
    + rewrite (reply_served w 1 n). exact Hclr.
Qed.

Lemma wait_reset_complete (fuel : nat) :
  forall (w : World) (u : unit) (w' : World),
    wait_reset K fuel w = Some (u, w') ->
    exists n, (n < fuel)%nat /\
      (forall k, (k < n)%nat -> reset_bit K w k <> 0) /\ reset_bit K w n = 0.
Proof.
  unfold reset_bit.
  induction fuel as [| fuel IH]; intros w u w' H; [discriminate |].
  cbn [wait_reset] in H. rewrite lan8700ReadPhyReg_run in H.
  destruct (Z.eqb_spec (Z.land (reply w 0) (BMCR_RESET K)) 0) as [He | Hne].
  - exists 0%nat. repeat split; [lia | intros k Hk; lia | exact He].
  - change (S (mdioReads w)) with (1 + mdioReads w)%nat in H.
    apply IH in H. destruct H as (n & Hn & Hset & Hclr).
    exists (S n). split; [lia |]. split.
    + intros [| k] Hk; [exact Hne |].
      specialize (Hset k). rewrite (reply_served w 1 k) in Hset.
      apply Hset. lia.
    + rewrite (reply_served w 1 n) in Hclr. exact Hclr.
Qed.

Lemma dump_from_off (Hoff : trace_debug K = false) (n : nat) :
  forall (i : Z) (w : World), dump_from K i n w = (tt, w).
Proof.
  induction n as [| n IH]; intros i w; [reflexivity |].
  cbn [dump_from]. unfold bind, dump_one. rewrite Hoff.
  unfold ret. apply IH.
Qed.

Lemma dump_from_on (Hon : trace_debug K = true) (n : nat) :
  forall (j0 : nat) (w : World),
    (j0 + n < 256)%nat ->
    dump_from K (Z.of_nat j0) n w =
    (tt,
     mkWorld (netif w) (mdio w) (n + mdioReads w)
       (events w ++
        flat_map
          (fun j =>
             [read_of K w (Z.of_nat (j0 + j)) j;
              TraceDebugReg (Z.of_nat (j0 + j)) (reply w j)])
          (seq 0 n))).
Proof.
  induction n as [| n IH]; intros j0 w Hj.
  - cbn [dump_from seq flat_map]. rewrite app_nil_r.
    destruct w; reflexivity.
  - cbn [dump_from]. unfold bind at 1. unfold dump_one. rewrite Hon.
    unfold bind at 1. rewrite lan8700ReadPhyReg_run. unfold call.
    cbn [netif mdio mdioReads events].
    replace (to_uint8 (Z.of_nat j0 + 1)) with (Z.of_nat (S j0)).
    2:{ unfold to_uint8. change (2 ^ 8) with 256. rewrite Z.mod_small; lia. }
    change (S (mdioReads w)) with (1 + mdioReads w)%nat.
    rewrite IH by lia. cbn [netif mdio mdioReads events].
    f_equal. f_equal; [lia |].
    rewrite <- !app_assoc. f_equal. cbn [app seq flat_map].
    rewrite Nat.add_0_r. do 2 f_equal.
    rewrite <- seq_shift, !flat_map_concat_map, map_map. f_equal.
    apply map_ext. intros j.
    rewrite (read_of_served K w 1 j), (reply_served w 1 j).
    replace (S j0 + j)%nat with (j0 + S j)%nat by lia. reflexivity.
Qed.

Lemma lan8700DumpPhyReg_run (w : World) :
  lan8700DumpPhyReg K w =
  (tt,
   mkWorld (netif w) (mdio w)
     ((if trace_debug K then 32 else 0) + mdioReads w)
     (events w ++ dump_events K w 0)).
Proof.
  unfold lan8700DumpPhyReg, dump_events, bind, when.
  destruct (trace_debug K) eqn:Hd.
  - change 0 with (Z.of_nat 0). rewrite (dump_from_on Hd 32 0 w) by lia.
    unfold call. cbn [netif mdio mdioReads events].
    rewrite <- app_assoc. reflexivity.
  - rewrite dump_from_off by exact Hd. unfold ret. rewrite app_nil_r.
    destruct w; reflexivity.
Qed.

Lemma dump_events_served (w : World) (k : nat) (l : list Event) :
  dump_events K (mkWorld (netif w) (mdio w) (k + mdioReads w) l) 0 =
  dump_events K w k.
Proof.
  unfold dump_events. destruct (trace_debug K); [| reflexivity].
  f_equal. apply flat_map_ext. intros j.
  rewrite (read_of_served K w k), (reply_served w k). reflexivity.
Qed.

Lemma init_reset_run (w : World) :
  (TRACE_INFO K "Initializing LAN8700...\r\n" ;;;
   i <- interface ;;
   match extIntDriver i with
   | Some _ => call ExtIntInit
   | None => ret tt
   end ;;;
   lan8700WritePhyReg K (LAN8700_PHY_REG_BMCR K) (BMCR_RESET K)) w =
  (tt,
   mkWorld (netif w) (mdio w) (0 + mdioReads w)
     (events w ++
      (if trace_info K then [TraceInfo "Initializing LAN8700...\r\n"] else []) ++
      match extIntDriver (netif w) with Some _ => [ExtIntInit] | None => [] end ++
      [WritePhyReg (busAddress K (netif w)) (to_uint8 (LAN8700_PHY_REG_BMCR K))
         (to_uint16 (BMCR_RESET K))])).
Proof.
  destruct w as [i m r l]. run_drv.
  destruct (trace_info K), (extIntDriver i);
    cbn [app]; rewrite <- ?app_assoc; reflexivity.
Qed.

(** The run of [lan8700Init] once the reset bit has read as set [n] times
    and then as clear. *)
Lemma lan8700Init_run (n fuel : nat) (w : World) :
  (n < fuel)%nat ->
  (forall k, (k < n)%nat -> reset_bit K w k <> 0) ->
  reset_bit K w n = 0 ->
  lan8700Init K fuel w =
  Some (NO_ERROR,
        mkWorld (set_phyEvent true (netif w)) (mdio w)
          ((if trace_debug K then 32 else 0) + (S n + mdioReads w))
          (events w ++ init_events K w n)).
Proof.
  intros Hfuel Hset Hclr. unfold lan8700Init. rewrite init_reset_run.
  rewrite (wait_reset_run n); cbn [netif mdio mdioReads events].
  - unfold bind at 1. rewrite lan8700DumpPhyReg_run.
    cbn [netif mdio mdioReads events].
    change (S n + (0 + mdioReads w))%nat with (S n + mdioReads w)%nat.
    rewrite (dump_events_served w (S n)).
    unfold store_phyEvent, bind, modify, osSetEvent, call, ret.
    rewrite lan8700WritePhyReg_run.
    cbn [netif mdio mdioReads events].
    unfold init_events. do 3 f_equal.
    rewrite (map_ext _ (read_of K w (LAN8700_PHY_REG_BMCR K)))
      by (intros j; apply (read_of_served K w 0 j)).
    rewrite <- !app_assoc. reflexivity.
  - exact Hfuel.
  - intros k Hk. unfold reset_bit. rewrite (reply_served w 0 k).
    apply Hset, Hk.
  - unfold reset_bit. rewrite (reply_served w 0 n). exact Hclr.
Qed.

Lemma lan8700Init_complete (fuel : nat) (w : World) (r : error_t)
    (w' : World) :
  lan8700Init K fuel w = Some (r, w') ->
  exists n, (n < fuel)%nat /\
    (forall k, (k < n)%nat -> reset_bit K w k <> 0) /\
    reset_bit K w n = 0 /\
    r = NO_ERROR /\
    w' = mkWorld (set_phyEvent true (netif w)) (mdio w)
           ((if trace_debug K then 32 else 0) + (S n + mdioReads w))
           (events w ++ init_events K w n).
Proof.
  intros H. pose proof H as H0. unfold lan8700Init in H0.
  rewrite init_reset_run in H0.
  destruct (wait_reset K fuel _) as [[u w2] |] eqn:E; [| discriminate].
  apply wait_reset_complete in E. destruct E as (n & Hn & Hset & Hclr).
  unfold reset_bit in Hset, Hclr.
  rewrite (reply_served w 0 n) in Hclr.
  assert (Hset' : forall k, (k < n)%nat -> reset_bit K w k <> 0).
  { intros k Hk. specialize (Hset k Hk).
    rewrite (reply_served w 0 k) in Hset. exact Hset. }
  exists n. rewrite (lan8700Init_run n fuel w Hn Hset' Hclr) in H.
  injection H as <- <-. auto.
Qed.

End Init.

(** ** Running the timer handler *)

Lemma tick_poll_changed (K : Lan8700Header) (w : World) :
  extIntDriver (netif w) = None ->
  link_status K (reply w 0) <> linkState (netif w) ->
  lan8700Tick K w =
  (tt,
   mkWorld (set_phyEvent true (netif w)) (mdio w) (S (mdioReads w))
     (events w ++
      [read_of K w (LAN8700_PHY_REG_BMSR K) 0; StorePhyEvent true;
       OsSetEvent])).
Proof.
  destruct w as [i m n l]. run_drv. intros -> H.
  destruct (negb _), (linkState i); cbn [negb andb];
    try congruence; rewrite <- !app_assoc; reflexivity.
Qed.

Lemma tick_poll_unchanged (K : Lan8700Header) (w : World) :
  extIntDriver (netif w) = None ->
  link_status K (reply w 0) = linkState (netif w) ->
  lan8700Tick K w =
  (tt,
   mkWorld (netif w) (mdio w) (S (mdioReads w))
     (events w ++ [read_of K w (LAN8700_PHY_REG_BMSR K) 0])).
Proof.
  destruct w as [i m n l]. run_drv. intros -> H.
  destruct (negb _), (linkState i); cbn [negb andb];
    try congruence; reflexivity.
Qed.

Lemma tick_irq_run (K : Lan8700Header) (w : World) (d : ExtIntDriver) :
  extIntDriver (netif w) = Some d -> lan8700Tick K w = (tt, w).
Proof.
  destruct w as [i m n l]. run_drv. intros ->. reflexivity.
Qed.

(** ** Changing one reply *)

Lemma reply_with_reply_same (w : World) (k : nat) (x : Z) :
  reply (with_reply k x w) k = to_uint16 x.
Proof.
  unfold reply, with_reply. cbn [mdio mdioReads].
  rewrite Nat.eqb_refl. reflexivity.
Qed.

Lemma reply_with_reply_other (w : World) (k j : nat) (x : Z) :
  j <> k -> reply (with_reply k x w) j = reply w j.
Proof.
  intros Hjk. unfold reply, with_reply. cbn [mdio mdioReads].
  destruct (Nat.eqb_spec (j + mdioReads w) (k + mdioReads w)) as [E | _];
    [lia | reflexivity].
Qed.

Lemma read_of_with_reply_other (K : Lan8700Header) (w : World) (k j : nat)
    (x r : Z) :
  j <> k -> read_of K (with_reply k x w) r j = read_of K w r j.
Proof.
  intros Hjk. unfold read_of. rewrite reply_with_reply_other by exact Hjk.
  reflexivity.
Qed.

Lemma read_of_with_reply_same (K : Lan8700Header) (w : World) (k : nat)
    (x r : Z) :
  read_of K (with_reply k x w) r k =
  ReadPhyReg (busAddress K (netif w)) (to_uint8 r) (to_uint16 x).
Proof.
  unfold read_of. rewrite reply_with_reply_same. reflexivity.
Qed.

(** ** Counting calls in the log of the handler *)

Lemma count_app (p : Event -> bool) (l1 l2 : list Event) :
  count p (l1 ++ l2) = (count p l1 + count p l2)%nat.
Proof.
  unfold count. rewrite filter_app, length_app. reflexivity.
Qed.

Lemma handler_up_counts (K : Lan8700Header) (w : World) (i' : NetInterface) :
  let l :=
    [read_of K w (LAN8700_PHY_REG_ISR K) 0;
     read_of K w (LAN8700_PHY_REG_BMSR K) 1;
     read_of K w (LAN8700_PHY_REG_BMSR K) 2;
     read_of K w (LAN8700_PHY_REG_PSCSR K) 3] ++
    switch_log K (reply w 3) (netif w) ++
    [UpdateMacConfig i'; NicNotifyLinkChange i'] in
  count is_updateMacConfig l = 1%nat /\ count is_notifyLinkChange l = 1%nat.
Proof.
  destruct (negotiated_frame K (reply w 3) (netif w))
    as (_ & _ & _ & _ & _ & Hu & Hn).
  cbv zeta. rewrite !count_app, Hu, Hn. split; reflexivity.
Qed.

(** * Properties of the driver *)

(** ** Register access *)

(** C6.  Every register write and every register read goes to the bus
    address given by [resolveAddress]: the configured address of the
    interface when it lies in 0..31, and [LAN8700_PHY_ADDR] for every
    configured value from 32 on.  Both accessors use that same address, neither
    changes the interface, and each makes exactly one call to the transport.
    The configured address is an unsigned byte in the source, and the default
    is taken to fit the [uint8_t] local it is assigned to. *)
Theorem register_access_resolves_address
    (K : Lan8700Header) (w : World) (address data : Z)
    (Hcfg : 0 <= phyAddr (netif w))
    (Hdef : 0 <= LAN8700_PHY_ADDR K <= 255) :
  lan8700WritePhyReg K address data w =
    (tt,
     mkWorld (netif w) (mdio w) (mdioReads w)
       (events w ++
        [WritePhyReg (resolveAddress K (netif w)) (to_uint8 address)
           (to_uint16 data)]))
  /\ lan8700ReadPhyReg K address w =
    (reply w 0,
     mkWorld (netif w) (mdio w) (S (mdioReads w))
       (events w ++
        [ReadPhyReg (resolveAddress K (netif w)) (to_uint8 address)
           (reply w 0)]))
  /\ (phyAddr (netif w) <= 31 ->
      resolveAddress K (netif w) = phyAddr (netif w))
  /\ (32 <= phyAddr (netif w) ->
      resolveAddress K (netif w) = LAN8700_PHY_ADDR K).
Proof.
  rewrite lan8700WritePhyReg_run, lan8700ReadPhyReg_run.
  unfold read_of. rewrite (resolveAddress_busAddress K _ Hcfg Hdef).
  repeat split; intros H; unfold resolveAddress.
  - replace (0 <=? phyAddr (netif w)) with true
      by (symmetry; apply Z.leb_le; lia).
    replace (phyAddr (netif w) <=? 31) with true
      by (symmetry; apply Z.leb_le; lia).
    reflexivity.
  - replace (phyAddr (netif w) <=? 31) with false
      by (symmetry; apply Z.leb_gt; lia).
    rewrite andb_false_r. reflexivity.
Qed.

(** With the address left at 255 the read of register 1 goes to the default
    address 0 of the data sheet. *)
Lemma register_access_resolves_address_witness :
  events
    (after (lan8700ReadPhyReg lan8700_datasheet 1)
       (world_of (mkNetInterface 255 None false NIC_LINK_SPEED_UNKNOWN
                    NIC_UNKNOWN_DUPLEX_MODE false) [5]))
  = [ReadPhyReg 0 1 5].
Proof.
  unfold after.
  destruct (register_access_resolves_address lan8700_datasheet
              (world_of (mkNetInterface 255 None false NIC_LINK_SPEED_UNKNOWN
                           NIC_UNKNOWN_DUPLEX_MODE false) [5]) 1 0)
    as (_ & Hread & _).
  - simpl. lia.
  - simpl. lia.
  - rewrite Hread. reflexivity.
Defined.

(** ** Timer handler *)

(** C2.  Without an external interrupt line driver, a tick reads the status
    register once and signals a state change (event flag stored as set, then
    [osSetEvent] called) if and only if the link-status bit of the value read
    differs from the stored link state.  After such a tick the pending-event
    flag of the interface is set; when the two agree the interface is left as
    it was and nothing but the read leaves the driver.  No other field of
    the interface changes in either case. *)
Theorem tick_poll_notifies_iff_changed
    (K : Lan8700Header) (w : World)
    (Hpoll : extIntDriver (netif w) = None) :
  let up := link_status K (reply w 0) in
  let w' := after (lan8700Tick K) w in
  let rd := read_of K w (LAN8700_PHY_REG_BMSR K) 0 in
  (In OsSetEvent (new_events w w') <-> up <> linkState (netif w)) /\
  (up <> linkState (netif w) ->
     phyEvent (netif w') = true /\
     netif w' = set_phyEvent true (netif w) /\
     new_events w w' = [rd; StorePhyEvent true; OsSetEvent]) /\
  (up = linkState (netif w) ->
     phyEvent (netif w') = phyEvent (netif w) /\
     netif w' = netif w /\ new_events w w' = [rd]) /\
  phyAddr (netif w') = phyAddr (netif w) /\
  extIntDriver (netif w') = extIntDriver (netif w) /\
  linkState (netif w') = linkState (netif w) /\
  linkSpeed (netif w') = linkSpeed (netif w) /\
  duplexMode (netif w') = duplexMode (netif w).
Proof.
  intros up w' rd. subst up w' rd. unfold after.
  destruct (bool_dec (link_status K (reply w 0)) (linkState (netif w)))
    as [Heq | Hne].
  - rewrite (tick_poll_unchanged K w Hpoll Heq). cbn [snd netif].
    rewrite (new_events_app w _ [read_of K w (LAN8700_PHY_REG_BMSR K) 0])
      by reflexivity.
    repeat split; try tauto.
    intros [H | []]. discriminate H.
  - rewrite (tick_poll_changed K w Hpoll Hne). cbn [snd netif].
    rewrite (new_events_app w _
               [read_of K w (LAN8700_PHY_REG_BMSR K) 0; StorePhyEvent true;
                OsSetEvent])
      by reflexivity.
    repeat split; try tauto.
    intros _. right. right. left. reflexivity.
Qed.

(** A cold interface (link down, no event pending) on a bus whose status
    register shows the link up: the tick sets the flag and signals the
    host. *)
Lemma tick_poll_notifies_iff_changed_witness :
  let w := world_of cold_interface [4] in
  let w' := after (lan8700Tick lan8700_datasheet) w in
  phyEvent (netif w) = false /\
  phyEvent (netif w') = true /\
  new_events w w' = [ReadPhyReg 0 1 4; StorePhyEvent true; OsSetEvent].
Proof.
  cbv zeta. split; [reflexivity |].
  destruct (tick_poll_notifies_iff_changed lan8700_datasheet
              (world_of cold_interface [4]) eq_refl)
    as (_ & Hchanged & _).
  destruct Hchanged as (Hflag & _ & Hev).
  - vm_compute. discriminate.
  - rewrite Hflag, Hev. split; reflexivity.
Defined.

(** C8.  With an external interrupt line driver configured, a tick does
    nothing: the whole state (interface, bus position, event log) is the one
    it started from, so no register is read or written, no field changes and
    no notification is sent. *)
Theorem tick_interrupt_driven_noop
    (K : Lan8700Header) (w : World) (d : ExtIntDriver)
    (Hirq : extIntDriver (netif w) = Some d) :
  lan8700Tick K w = (tt, w) /\
  new_events w (after (lan8700Tick K) w) = [].
Proof.
  unfold after. rewrite (tick_irq_run K w d Hirq). split; [reflexivity |].
  apply new_events_app. cbn [snd]. rewrite app_nil_r. reflexivity.
Qed.

Lemma tick_interrupt_driven_noop_witness :
  lan8700Tick lan8700_datasheet (world_of irq_interface [4]) =
  (tt, world_of irq_interface [4]).
Proof.
  apply (tick_interrupt_driven_noop lan8700_datasheet
           (world_of irq_interface [4]) ExtIntLine).
  reflexivity.
Defined.

(** C10.  The tick never writes the stored link state, speed or duplex mode:
    it leaves the interface as it is, or sets the event flag and calls
    [osSetEvent] after its one read.  Initialization and the two interrupt
    switches do not write these three fields either; the event handler is
    the operation that does (here on the data-sheet constants, an interrupt
    with the link up and 100BASE-TX full duplex negotiated). *)
Theorem link_fields_written_by_handler_only (K : Lan8700Header) (w : World) :
  (let w' := after (lan8700Tick K) w in
   linkState (netif w') = linkState (netif w) /\
   linkSpeed (netif w') = linkSpeed (netif w) /\
   duplexMode (netif w') = duplexMode (netif w) /\
   (netif w' = netif w \/
    netif w' = set_phyEvent true (netif w) /\
    new_events w w' =
      [read_of K w (LAN8700_PHY_REG_BMSR K) 0; StorePhyEvent true;
       OsSetEvent])) /\
  (forall fuel r w',
     lan8700Init K fuel w = Some (r, w') ->
     linkState (netif w') = linkState (netif w) /\
     linkSpeed (netif w') = linkSpeed (netif w) /\
     duplexMode (netif w') = duplexMode (netif w)) /\
  netif (after lan8700EnableIrq w) = netif w /\
  netif (after lan8700DisableIrq w) = netif w /\
  (let w0 := world_of cold_interface [64; 0; 4; 24] in
   let w1 := after (lan8700EventHandler lan8700_datasheet) w0 in
   linkState (netif w1) <> linkState (netif w0) /\
   linkSpeed (netif w1) <> linkSpeed (netif w0) /\
   duplexMode (netif w1) <> duplexMode (netif w0)).
Proof.
  split; [| split; [| split; [| split]]].
  - cbv zeta. unfold after.
    destruct (extIntDriver (netif w)) as [d |] eqn:Hd.
    + rewrite (tick_irq_run K w d Hd). cbn [snd]. auto.
    + destruct (bool_dec (link_status K (reply w 0)) (linkState (netif w)))
        as [Heq | Hne].
      * rewrite (tick_poll_unchanged K w Hd Heq). cbn [snd netif]. auto.
      * rewrite (tick_poll_changed K w Hd Hne). cbn [snd netif].
        repeat split. right. split; [reflexivity |].
        apply new_events_app. reflexivity.
  - intros fuel r w' H. apply lan8700Init_complete in H.
    destruct H as (n & _ & _ & _ & _ & ->). cbn [netif]. auto.
  - destruct w as [i m n l]. run_drv. destruct (extIntDriver i); reflexivity.
  - destruct w as [i m n l]. run_drv. destruct (extIntDriver i); reflexivity.
  - vm_compute. repeat split; discriminate.
Qed.

(** ** Event handler *)

(** C1.  When the interrupt status read on entry shows a relevant bit, the
    handler reads BMSR exactly twice before it decides: its calls start with
    the read of ISR and two reads of BMSR, any read after them is the read of
    the mode register made once the link was found up, and the stored link
    state is the link-status bit of the second BMSR value.  The value of the
    first BMSR read has no part in it: with any other value [x] there, the
    handler ends with the same interface and makes the same calls. *)
Theorem handler_decides_on_second_status_read
    (K : Lan8700Header) (w : World)
    (Hirq : relevant_irq K (reply w 0)) :
  let w' := after (lan8700EventHandler K) w in
  exists rest,
    new_events w w' =
      read_of K w (LAN8700_PHY_REG_ISR K) 0
      :: read_of K w (LAN8700_PHY_REG_BMSR K) 1
      :: read_of K w (LAN8700_PHY_REG_BMSR K) 2 :: rest
    /\ (forall e, In e rest -> is_read e = true ->
          e = read_of K w (LAN8700_PHY_REG_PSCSR K) 3
          /\ link_status K (reply w 2) = true)
    /\ linkState (netif w') = link_status K (reply w 2)
    /\ forall x,
         let wx := with_reply 1 x w in
         let wx' := after (lan8700EventHandler K) wx in
         netif wx' = netif w' /\
         new_events wx wx' =
           read_of K w (LAN8700_PHY_REG_ISR K) 0
           :: ReadPhyReg (busAddress K (netif w))
                (to_uint8 (LAN8700_PHY_REG_BMSR K)) (to_uint16 x)
           :: read_of K w (LAN8700_PHY_REG_BMSR K) 2 :: rest.
Proof.
  cbv zeta. unfold after.
  assert (Hx0 : forall x, reply (with_reply 1 x w) 0 = reply w 0)
    by (intros x; apply reply_with_reply_other; lia).
  assert (Hx2 : forall x, reply (with_reply 1 x w) 2 = reply w 2)
    by (intros x; apply reply_with_reply_other; lia).
  assert (Hx3 : forall x, reply (with_reply 1 x w) 3 = reply w 3)
    by (intros x; apply reply_with_reply_other; lia).
  destruct (link_status K (reply w 2)) eqn:Hup.
  - rewrite (handler_up K w Hirq Hup). cbn [snd netif].
    eexists. split; [apply new_events_app; cbn [app]; reflexivity |].
    split; [| split; [reflexivity |]].
    + intros e He Hr. split; [| reflexivity].
      destruct He as [<- | He]; [reflexivity |]. exfalso.
      apply in_app_or in He. destruct He as [He | He].
      * destruct (negotiated_frame K (reply w 3) (netif w))
          as (_ & _ & _ & _ & Hc & _).
        unfold count in Hc. apply length_zero_iff_nil in Hc.
        assert (Hin : In e (filter is_read
                              (switch_log K (reply w 3) (netif w))))
          by (apply filter_In; split; assumption).
        rewrite Hc in Hin. exact Hin.
      * destruct He as [<- | [<- | []]]; discriminate Hr.
    + intros x.
      rewrite (handler_up K (with_reply 1 x w)) by (rewrite ?Hx0, ?Hx2; assumption).
      cbn [snd netif]. rewrite Hx3.
      split; [reflexivity |]. apply new_events_app.
      rewrite (read_of_with_reply_other K w 1 0),
        (read_of_with_reply_other K w 1 2),
        (read_of_with_reply_other K w 1 3), read_of_with_reply_same by lia.
      reflexivity.
  - rewrite (handler_down K w Hirq Hup). cbn [snd netif].
    eexists. split; [apply new_events_app; reflexivity |].
    split; [| split; [reflexivity |]].
    + intros e [<- | []] Hr. discriminate Hr.
    + intros x.
      rewrite (handler_down K (with_reply 1 x w)) by (rewrite ?Hx0, ?Hx2; assumption).
      cbn [snd netif].
      split; [reflexivity |]. apply new_events_app.
      rewrite (read_of_with_reply_other K w 1 0),
        (read_of_with_reply_other K w 1 2), read_of_with_reply_same by lia.
      reflexivity.
Qed.

(** The first status read says "down" (latched failure), the second says
    "up": the handler stores the link as up. *)
Lemma handler_decides_on_second_status_read_witness :
  linkState
    (netif (after (lan8700EventHandler lan8700_datasheet)
              (world_of cold_interface [64; 0; 4; 24]))) = true.
Proof.
  destruct (handler_decides_on_second_status_read lan8700_datasheet
              (world_of cold_interface [64; 0; 4; 24]))
    as (rest & _ & _ & Hlink & _).
  - left. vm_compute. discriminate.
  - rewrite Hlink. reflexivity.
Defined.

(** C4.  The handler notifies the host of a link change if and only if the
    interrupt status read on entry has the auto-negotiation-complete or the
    link-down bit set.  With neither bit set it stops after that one read:
    the interface is unchanged and nothing else leaves the driver.  With one
    of them set, [nicNotifyLinkChange] is called exactly once, as the last
    call and on the updated interface, whether the link came out up or
    down. *)
Theorem handler_notifies_iff_relevant (K : Lan8700Header) (w : World) :
  let w' := after (lan8700EventHandler K) w in
  let irq := relevant_irq K (reply w 0) in
  (~ irq ->
     w' = mkWorld (netif w) (mdio w) (S (mdioReads w))
            (events w ++ [read_of K w (LAN8700_PHY_REG_ISR K) 0]) /\
     new_events w w' = [read_of K w (LAN8700_PHY_REG_ISR K) 0]) /\
  (irq ->
     exists pre,
       new_events w w' = pre ++ [NicNotifyLinkChange (netif w')] /\
       count is_notifyLinkChange pre = 0%nat) /\
  (count is_notifyLinkChange (new_events w w') = 1%nat <-> irq) /\
  (count is_notifyLinkChange (new_events w w') = 0%nat <-> ~ irq).
Proof.
  cbv zeta. unfold after.
  destruct (relevant_irq_dec K (reply w 0)) as [Hirq | Hidle].
  - assert (Hpre : exists pre,
      new_events w (snd (lan8700EventHandler K w)) =
        pre ++ [NicNotifyLinkChange (netif (snd (lan8700EventHandler K w)))]
      /\ count is_notifyLinkChange pre = 0%nat).
    { destruct (link_status K (reply w 2)) eqn:Hup.
      - rewrite (handler_up K w Hirq Hup). cbn [snd netif].
        exists ([read_of K w (LAN8700_PHY_REG_ISR K) 0;
                 read_of K w (LAN8700_PHY_REG_BMSR K) 1;
                 read_of K w (LAN8700_PHY_REG_BMSR K) 2;
                 read_of K w (LAN8700_PHY_REG_PSCSR K) 3] ++
                switch_log K (reply w 3) (netif w) ++
                [UpdateMacConfig
                   (set_linkState true
                      (negotiated K (reply w 3) (netif w)))]).
        split.
        + apply new_events_app. rewrite <- !app_assoc. reflexivity.
        + destruct (negotiated_frame K (reply w 3) (netif w))
            as (_ & _ & _ & _ & _ & _ & Hn).
          rewrite !count_app, Hn. reflexivity.
      - rewrite (handler_down K w Hirq Hup). cbn [snd netif].
        exists [read_of K w (LAN8700_PHY_REG_ISR K) 0;
                read_of K w (LAN8700_PHY_REG_BMSR K) 1;
                read_of K w (LAN8700_PHY_REG_BMSR K) 2].
        split; [apply new_events_app |]; reflexivity. }
    destruct Hpre as (pre & Hev & Hcount).
    assert (Hone : count is_notifyLinkChange
                     (new_events w (snd (lan8700EventHandler K w))) = 1%nat)
      by (rewrite Hev, count_app, Hcount; reflexivity).
    repeat split; try tauto.
    + exists pre. auto.
    + rewrite Hone. discriminate.
  - rewrite (handler_idle K w Hidle). cbn [snd].
    rewrite (new_events_app w _ [read_of K w (LAN8700_PHY_REG_ISR K) 0])
      by reflexivity.
    repeat split; try tauto. discriminate.
Qed.

(** A link-down interrupt on a link that is down: one notification. *)
Lemma handler_notifies_iff_relevant_witness :
  count is_notifyLinkChange
    (new_events (world_of cold_interface [16; 4; 0])
       (after (lan8700EventHandler lan8700_datasheet)
          (world_of cold_interface [16; 4; 0]))) = 1%nat.
Proof.
  destruct (handler_notifies_iff_relevant lan8700_datasheet
              (world_of cold_interface [16; 4; 0])) as (_ & _ & Hone & _).
  apply Hone. right. vm_compute. discriminate.
Defined.

(** C7.  An interrupt with a relevant bit, the link up on the second status
    read and the mode register at 100BASE-TX full duplex leaves the interface
    with the link up at 100 Mbps, full duplex, and [updateMacConfig] is
    called exactly once, on that interface.  (The claim's scenario has the
    first status read up as well; only the second one matters.)  The callback
    is not called when the second status read shows the link down, nor when
    no relevant interrupt bit is set.  The labels of the [switch] are
    pairwise different, as C requires. *)
Theorem handler_link_up_100BTX_FD
    (K : Lan8700Header) (w : World)
    (Hlabels : NoDup (case_labels K)) :
  let w' := after (lan8700EventHandler K) w in
  let irq := relevant_irq K (reply w 0) in
  (irq -> link_status K (reply w 2) = true ->
   hcdspeed K (reply w 3) = PSCSR_HCDSPEED_100BTX_FD K ->
     linkState (netif w') = true /\
     linkSpeed (netif w') = NIC_LINK_SPEED_100MBPS /\
     duplexMode (netif w') = NIC_FULL_DUPLEX_MODE /\
     count is_updateMacConfig (new_events w w') = 1%nat /\
     In (UpdateMacConfig (netif w')) (new_events w w')) /\
  (irq -> link_status K (reply w 2) = false ->
     count is_updateMacConfig (new_events w w') = 0%nat) /\
  (~ irq -> count is_updateMacConfig (new_events w w') = 0%nat).
Proof.
  cbv zeta. unfold after. split; [| split].
  - intros Hirq Hup Hmode.
    rewrite (handler_up K w Hirq Hup). cbn [snd netif].
    destruct (negotiated_100BTX_FD K (reply w 3) (netif w) Hlabels Hmode)
      as [Hneg Hlog].
    erewrite new_events_app by (cbn [snd events]; reflexivity).
    repeat split.
    + rewrite Hneg. reflexivity.
    + rewrite Hneg. reflexivity.
    + apply handler_up_counts.
    + rewrite Hlog. cbn [app]. do 4 right. left. reflexivity.
  - intros Hirq Hdown. rewrite (handler_down K w Hirq Hdown).
    erewrite new_events_app by (cbn [snd events]; reflexivity). reflexivity.
  - intros Hidle. rewrite (handler_idle K w Hidle).
    erewrite new_events_app by (cbn [snd events]; reflexivity). reflexivity.
Qed.

(** The scenario of the specification on the data-sheet constants. *)
Lemma handler_link_up_100BTX_FD_witness :
  let w := world_of cold_interface [64; 4; 4; 24] in
  let w' := after (lan8700EventHandler lan8700_datasheet) w in
  linkState (netif w') = true /\
  linkSpeed (netif w') = NIC_LINK_SPEED_100MBPS /\
  duplexMode (netif w') = NIC_FULL_DUPLEX_MODE /\
  count is_updateMacConfig (new_events w w') = 1%nat /\
  In (UpdateMacConfig (netif w')) (new_events w w').
Proof.
  cbv zeta.
  destruct (handler_link_up_100BTX_FD lan8700_datasheet
              (world_of cold_interface [64; 4; 4; 24])) as (Hscenario & _).
  - vm_compute. repeat constructor; simpl; intuition discriminate.
  - apply Hscenario.
    + left. vm_compute. discriminate.
    + reflexivity.
    + reflexivity.
Defined.

(** C3.  On an interrupt that finds the link up, the speed and duplex mode
    stored by the handler follow the table: 10BASE-T gives 10 Mbps half
    duplex, 10BASE-T full duplex gives 10 Mbps full duplex, 100BASE-TX gives
    100 Mbps half duplex and 100BASE-TX full duplex gives 100 Mbps full
    duplex.  For a mode field equal to none of the four labels the stored
    speed and duplex mode stay as they were and the handler runs on to its
    end: the host is still notified, once.  The labels of the [switch] are
    pairwise different, as C requires. *)
Theorem handler_decodes_mode
    (K : Lan8700Header) (w : World)
    (Hlabels : NoDup (case_labels K))
    (Hirq : relevant_irq K (reply w 0))
    (Hup : link_status K (reply w 2) = true) :
  let w' := after (lan8700EventHandler K) w in
  let mode := hcdspeed K (reply w 3) in
  (mode = PSCSR_HCDSPEED_10BT K ->
     linkSpeed (netif w') = NIC_LINK_SPEED_10MBPS /\
     duplexMode (netif w') = NIC_HALF_DUPLEX_MODE) /\
  (mode = PSCSR_HCDSPEED_10BT_FD K ->
     linkSpeed (netif w') = NIC_LINK_SPEED_10MBPS /\
     duplexMode (netif w') = NIC_FULL_DUPLEX_MODE) /\
  (mode = PSCSR_HCDSPEED_100BTX K ->
     linkSpeed (netif w') = NIC_LINK_SPEED_100MBPS /\
     duplexMode (netif w') = NIC_HALF_DUPLEX_MODE) /\
  (mode = PSCSR_HCDSPEED_100BTX_FD K ->
     linkSpeed (netif w') = NIC_LINK_SPEED_100MBPS /\
     duplexMode (netif w') = NIC_FULL_DUPLEX_MODE) /\
  (~ In mode (case_labels K) ->
     linkSpeed (netif w') = linkSpeed (netif w) /\
     duplexMode (netif w') = duplexMode (netif w) /\
     count is_notifyLinkChange (new_events w w') = 1%nat).
Proof.
  cbv zeta. unfold after.
  rewrite (handler_up K w Hirq Hup). cbn [snd netif].
  repeat split.
  1, 2: destruct (negotiated_10BT K (reply w 3) (netif w) H) as [-> _].
  3, 4: destruct (negotiated_10BT_FD K (reply w 3) (netif w) Hlabels H)
          as [-> _].
  5, 6: destruct (negotiated_100BTX K (reply w 3) (netif w) Hlabels H)
          as [-> _].
  7, 8: destruct (negotiated_100BTX_FD K (reply w 3) (netif w) Hlabels H)
          as [-> _].
  9, 10: destruct (negotiated_default K (reply w 3) (netif w) H) as [-> _].
  1-10: reflexivity.
  erewrite new_events_app by (cbn [snd events]; reflexivity).
  apply handler_up_counts.
Qed.

(** Two encodings of the data sheet and an encoding outside the table, each
    on a cold interface (speed and duplex mode unknown). *)
Lemma handler_decodes_mode_witness :
  let run v :=
    netif (after (lan8700EventHandler lan8700_datasheet)
             (world_of cold_interface [64; 0; 4; v])) in
  (linkSpeed (run 4), duplexMode (run 4)) =
    (NIC_LINK_SPEED_10MBPS, NIC_HALF_DUPLEX_MODE) /\
  (linkSpeed (run 24), duplexMode (run 24)) =
    (NIC_LINK_SPEED_100MBPS, NIC_FULL_DUPLEX_MODE) /\
  (linkSpeed (run 12), duplexMode (run 12)) =
    (NIC_LINK_SPEED_UNKNOWN, NIC_UNKNOWN_DUPLEX_MODE).
Proof.
  cbv zeta.
  assert (Hlabels : NoDup (case_labels lan8700_datasheet))
    by (vm_compute; repeat constructor; simpl; intuition discriminate).
  assert (Hirq : forall v,
            relevant_irq lan8700_datasheet
              (reply (world_of cold_interface [64; 0; 4; v]) 0))
    by (intros v; left; vm_compute; discriminate).
  split; [| split].
  - destruct (handler_decodes_mode lan8700_datasheet
                (world_of cold_interface [64; 0; 4; 4]) Hlabels (Hirq 4)
                eq_refl) as (H & _).
    destruct (H eq_refl) as [-> ->]. reflexivity.
  - destruct (handler_decodes_mode lan8700_datasheet
                (world_of cold_interface [64; 0; 4; 24]) Hlabels (Hirq 24)
                eq_refl) as (_ & _ & _ & H & _).
    destruct (H eq_refl) as [-> ->]. reflexivity.
  - destruct (handler_decodes_mode lan8700_datasheet
                (world_of cold_interface [64; 0; 4; 12]) Hlabels (Hirq 12)
                eq_refl) as (_ & _ & _ & _ & H).
    destruct H as (-> & -> & _); [| reflexivity].
    vm_compute. intuition discriminate.
Defined.

(** C9.  When a relevant interrupt finds the link up on the second status
    read but the mode register holds none of the four encodings, the handler
    still sets the link state to up, leaves the stored speed and duplex mode
    as they were, calls [updateMacConfig] on that interface (which therefore
    carries the stale speed and duplex mode) and then notifies the host of
    the link change.  The only trace of the invalid encoding is the warning,
    when warnings are compiled in. *)
Theorem handler_invalid_mode_still_link_up
    (K : Lan8700Header) (w : World)
    (Hirq : relevant_irq K (reply w 0))
    (Hup : link_status K (reply w 2) = true)
    (Hinvalid : ~ In (hcdspeed K (reply w 3)) (case_labels K)) :
  let w' := after (lan8700EventHandler K) w in
  let i' := set_linkState true (netif w) in
  netif w' = i' /\
  linkState i' = true /\
  linkSpeed i' = linkSpeed (netif w) /\
  duplexMode i' = duplexMode (netif w) /\
  new_events w w' =
    [read_of K w (LAN8700_PHY_REG_ISR K) 0;
     read_of K w (LAN8700_PHY_REG_BMSR K) 1;
     read_of K w (LAN8700_PHY_REG_BMSR K) 2;
     read_of K w (LAN8700_PHY_REG_PSCSR K) 3] ++
    (if trace_warning K then [TraceWarning "Invalid Duplex mode\r\n"]
     else []) ++
    [UpdateMacConfig i'; NicNotifyLinkChange i'].
Proof.
  cbv zeta. unfold after.
  rewrite (handler_up K w Hirq Hup). cbn [snd netif].
  destruct (negotiated_default K (reply w 3) (netif w) Hinvalid)
    as [Hneg Hlog].
  rewrite Hneg, Hlog. repeat split.
  apply new_events_app. reflexivity.
Qed.

(** An interface that holds 10 Mbps half duplex from an earlier negotiation
    sees the link come up with the mode field at 3 (an encoding outside the
    table): the MAC is reconfigured with the old 10 Mbps half duplex. *)
Lemma handler_invalid_mode_still_link_up_witness :
  let i := mkNetInterface 1 None false NIC_LINK_SPEED_10MBPS
             NIC_HALF_DUPLEX_MODE false in
  let w := world_of i [16; 0; 4; 12] in
  new_events w (after (lan8700EventHandler lan8700_datasheet) w) =
  [ReadPhyReg 1 29 16; ReadPhyReg 1 1 0; ReadPhyReg 1 1 4; ReadPhyReg 1 31 12;
   TraceWarning "Invalid Duplex mode\r\n";
   UpdateMacConfig (set_linkState true i);
   NicNotifyLinkChange (set_linkState true i)].
Proof.
  cbv zeta.
  destruct (handler_invalid_mode_still_link_up lan8700_datasheet
              (world_of (mkNetInterface 1 None false NIC_LINK_SPEED_10MBPS
                           NIC_HALF_DUPLEX_MODE false) [16; 0; 4; 12]))
    as (_ & _ & _ & _ & Hev).
  - right. vm_compute. discriminate.
  - reflexivity.
  - vm_compute. intuition discriminate.
  - rewrite Hev. reflexivity.
Defined.

(** ** Initialization *)

(** What a completed initialization does before it writes the interrupt
    mask holds no store of the flag and one register write, the reset. *)
Lemma init_events_tail (K : Lan8700Header) (w : World) (n : nat) :
  exists before,
    init_events K w n =
      before ++
      [WritePhyReg (busAddress K (netif w))
         (to_uint8 (LAN8700_PHY_REG_IMR K))
         (to_uint16 (Z.lor (IMR_AN_COMPLETE K) (IMR_LINK_DOWN K)));
       StorePhyEvent true;
       OsSetEvent] /\
    filter is_flag_store before = [] /\
    filter is_write before =
      [WritePhyReg (busAddress K (netif w))
         (to_uint8 (LAN8700_PHY_REG_BMCR K))
         (to_uint16 (BMCR_RESET K))].
Proof.
  exists ((if trace_info K
           then [TraceInfo "Initializing LAN8700...\r\n"] else []) ++
          match extIntDriver (netif w) with
          | Some _ => [ExtIntInit]
          | None => []
          end ++
          [WritePhyReg (busAddress K (netif w))
             (to_uint8 (LAN8700_PHY_REG_BMCR K))
             (to_uint16 (BMCR_RESET K))] ++
          map (read_of K w (LAN8700_PHY_REG_BMCR K)) (seq 0 (S n)) ++
          dump_events K w (S n)).
  split; [unfold init_events; rewrite <- !app_assoc; reflexivity |].
  assert (Hwait : forall p l,
            (forall r k, p (read_of K w r k) = false) ->
            filter p (map (read_of K w (LAN8700_PHY_REG_BMCR K)) l) = []).
  { intros p l Hp. induction l as [| j l IH]; [reflexivity |].
    cbn [map filter]. rewrite Hp. exact IH. }
  assert (Hdump : forall p,
            (forall r k, p (read_of K w r k) = false) ->
            (forall j v, p (TraceDebugReg j v) = false) ->
            (forall m, p (TraceDebug m) = false) ->
            filter p (dump_events K w (S n)) = []).
  { intros p Hr Ht Hm. unfold dump_events.
    destruct (trace_debug K); [| reflexivity].
    rewrite filter_app. cbn [filter]. rewrite Hm, app_nil_r.
    generalize (seq 0 32). intros l.
    induction l as [| j l IH]; [reflexivity |].
    cbn [flat_map app filter]. rewrite Hr, Ht. exact IH. }
  split; rewrite !filter_app, Hwait, Hdump by reflexivity;
    destruct (trace_info K), (extIntDriver (netif w)); reflexivity.
Qed.

(** C5, as the code has it.  An initialization that completes has seen the
    reset bit set on some number [n] of reads of BMCR and clear on the next;
    it returns [NO_ERROR], leaves the pending-event flag set and every other
    field of the interface as it was, and what it does is, in this order:
    the start-up message, the initialization of the interrupt line when one
    is configured, the write of the reset bit to BMCR, the [n + 1] reads of
    BMCR, the register dump (32 reads, when debug traces are compiled in),
    the write of the interrupt mask enabling auto-negotiation-complete and
    link-down, the store of the pending-event flag, and [osSetEvent].  The
    flag is stored once, after the mask is written and before the host is
    signalled, and the only register written before the mask is BMCR.
    Conversely, whenever the device clears the reset bit on the read after
    [n] set ones, the initialization completes in this way (any bound above
    [n] on the number of reads of the wait loop is enough). *)
Theorem init_sequence (K : Lan8700Header) (w : World) :
  (forall fuel r w',
     lan8700Init K fuel w = Some (r, w') ->
     r = NO_ERROR /\
     exists n,
       (forall k, (k < n)%nat -> reset_bit K w k <> 0) /\
       reset_bit K w n = 0 /\
       netif w' = set_phyEvent true (netif w) /\
       new_events w w' = init_events K w n /\
       phyEvent (netif w') = true /\
       phyAddr (netif w') = phyAddr (netif w) /\
       extIntDriver (netif w') = extIntDriver (netif w) /\
       linkState (netif w') = linkState (netif w) /\
       linkSpeed (netif w') = linkSpeed (netif w) /\
       duplexMode (netif w') = duplexMode (netif w) /\
       exists before,
         new_events w w' =
           before ++
           [WritePhyReg (busAddress K (netif w))
              (to_uint8 (LAN8700_PHY_REG_IMR K))
              (to_uint16 (Z.lor (IMR_AN_COMPLETE K) (IMR_LINK_DOWN K)));
            StorePhyEvent true;
            OsSetEvent] /\
         filter is_flag_store before = [] /\
         filter is_write before =
           [WritePhyReg (busAddress K (netif w))
              (to_uint8 (LAN8700_PHY_REG_BMCR K))
              (to_uint16 (BMCR_RESET K))]) /\
  (forall n,
     (forall k, (k < n)%nat -> reset_bit K w k <> 0) ->
     reset_bit K w n = 0 ->
     forall fuel, (n < fuel)%nat ->
     exists w',
       lan8700Init K fuel w = Some (NO_ERROR, w') /\
       netif w' = set_phyEvent true (netif w) /\
       new_events w w' = init_events K w n /\
       phyEvent (netif w') = true /\
       exists before,
         new_events w w' =
           before ++
           [WritePhyReg (busAddress K (netif w))
              (to_uint8 (LAN8700_PHY_REG_IMR K))
              (to_uint16 (Z.lor (IMR_AN_COMPLETE K) (IMR_LINK_DOWN K)));
            StorePhyEvent true;
            OsSetEvent] /\
         filter is_flag_store before = [] /\
         filter is_write before =
           [WritePhyReg (busAddress K (netif w))
              (to_uint8 (LAN8700_PHY_REG_BMCR K))
              (to_uint16 (BMCR_RESET K))]).
Proof.
  split.
  - intros fuel r w' H. apply lan8700Init_complete in H.
    destruct H as (n & _ & Hset & Hclr & -> & ->).
    split; [reflexivity |]. exists n.
    rewrite (new_events_app w _ (init_events K w n)) by reflexivity.
    cbn [netif]. repeat split; try assumption.
    apply init_events_tail.
  - intros n Hset Hclr fuel Hfuel.
    rewrite (lan8700Init_run K n fuel w Hfuel Hset Hclr).
    eexists. split; [reflexivity |].
    rewrite (new_events_app w _ (init_events K w n)) by reflexivity.
    cbn [netif]. repeat split.
    apply init_events_tail.
Qed.

(** A device that holds the reset bit for two reads and clears it on the
    third, on an interface with an interrupt line and no event pending: the
    initialization completes within five reads and leaves the flag set,
    stored between the write of the mask and the signal to the host. *)
Lemma init_sequence_witness :
  let w := world_of irq_interface [32768; 32768; 0] in
  phyEvent (netif w) = false /\
  exists w',
    lan8700Init lan8700_datasheet 5 w = Some (NO_ERROR, w') /\
    netif w' = set_phyEvent true (netif w) /\
    new_events w w' = init_events lan8700_datasheet w 2 /\
    phyEvent (netif w') = true /\
    exists before,
      new_events w w' =
        before ++ [WritePhyReg 0 30 80; StorePhyEvent true; OsSetEvent] /\
      filter is_flag_store before = [] /\
      filter is_write before = [WritePhyReg 0 0 32768].
Proof.
  cbv zeta. split; [reflexivity |].
  destruct (init_sequence lan8700_datasheet
              (world_of irq_interface [32768; 32768; 0])) as [_ Hruns].
  apply (Hruns 2%nat).
  - intros [| [| k]] Hk; [vm_compute; discriminate .. | lia].
  - reflexivity.
  - lia.
Defined.

(** C5, as the specification words it, fails: with debug traces compiled in,
    on a device that clears the reset bit at once, the initialization
    completes with [NO_ERROR] but the register dump is not its last step.
    Its calls are those of [init_events], not those of
    [init_events_spec_order]: the interrupt mask is written and the host is
    signalled after the dump, and the last call is [osSetEvent]. *)
Lemma init_dump_is_not_last :
  let w := world_of cold_interface [] in
  exists w',
    lan8700Init lan8700_datasheet 1 w = Some (NO_ERROR, w') /\
    events w' = init_events lan8700_datasheet w 0 /\
    events w' <> init_events_spec_order lan8700_datasheet w 0 /\
    last (events w') ExtIntInit = OsSetEvent /\
    nth 3 (events w') ExtIntInit = ReadPhyReg 0 0 0 /\
    nth 4 (events w') ExtIntInit = TraceDebugReg 0 0 /\
    nth 68 (events w') ExtIntInit = WritePhyReg 0 30 80.
Proof.
  cbv zeta. eexists. split; [vm_compute; reflexivity |].
  cbn [events]. split; [vm_compute; reflexivity |].
  split; [vm_compute; discriminate |].
  repeat split.
Qed.

(** * Further properties *)

(** ** Lists of calls *)

Lemma filter_flat_map {A B : Type} (p : B -> bool) (g : A -> list B)
    (l : list A) :
  filter p (flat_map g l) = flat_map (fun x => filter p (g x)) l.
Proof.
  induction l as [| x l IH]; [reflexivity |].
  cbn [flat_map]. rewrite filter_app, IH. reflexivity.
Qed.

Lemma flat_map_one {A B : Type} (g : A -> B) (l : list A) :
  flat_map (fun x => [g x]) l = map g l.
Proof.
  induction l as [| x l IH]; [reflexivity |].
  cbn [flat_map map app]. rewrite IH. reflexivity.
Qed.

Lemma flat_map_none {A B : Type} (l : list A) :
  flat_map (fun _ : A => @nil B) l = [].
Proof.
  induction l as [| x l IH]; [reflexivity | exact IH].
Qed.

Lemma reads_are_reads (K : Lan8700Header) (w : World) (r : Z) (l : list nat) :
  forallb is_read (map (read_of K w r) l) = true.
Proof.
  induction l as [| j l IH]; [reflexivity | exact IH].
Qed.

(** The reads of the register dump, and its calls to the transport. *)
Lemma dump_events_reads (K : Lan8700Header) (w : World) (off : nat) :
  filter is_read (dump_events K w off) =
    (if trace_debug K then
       map (fun j => ReadPhyReg (busAddress K (netif w)) (Z.of_nat j)
                       (reply w (off + j))) (seq 0 32)
     else []) /\
  filter is_bus (dump_events K w off) = filter is_read (dump_events K w off) /\
  filter is_write (dump_events K w off) = [].
Proof.
  unfold dump_events. destruct (trace_debug K); [| repeat split].
  rewrite !filter_app, !filter_flat_map. cbn [filter is_read is_write is_bus
    read_of orb app]. rewrite !app_nil_r, flat_map_one, flat_map_none.
  split; [| split; reflexivity].
  apply map_ext_in. intros j Hj. apply in_seq in Hj.
  unfold read_of, to_uint8. change (2 ^ 8) with 256.
  rewrite Z.mod_small by lia. reflexivity.
Qed.

(** ** Register dump *)

(** X1.  [lan8700DumpPhyReg] with debug traces compiled in reads the 32
    registers 0, 1, ..., 31 once each, in this order, all at the resolved bus
    address; it writes no register and leaves the interface as it is.  With
    debug traces compiled out it does nothing at all: no register is read. *)
Theorem dump_reads_each_register_once (K : Lan8700Header) (w : World) :
  let w' := after (lan8700DumpPhyReg K) w in
  netif w' = netif w /\
  filter is_write (new_events w w') = [] /\
  (trace_debug K = true ->
     filter is_read (new_events w w') =
       map (fun j => ReadPhyReg (busAddress K (netif w)) (Z.of_nat j)
                       (reply w j)) (seq 0 32) /\
     mdioReads w' = (32 + mdioReads w)%nat) /\
  (trace_debug K = false -> lan8700DumpPhyReg K w = (tt, w)).
Proof.
  cbv zeta. unfold after. rewrite lan8700DumpPhyReg_run. cbn [snd netif].
  rewrite (new_events_app w _ (dump_events K w 0)) by reflexivity.
  destruct (dump_events_reads K w 0) as (Hr & _ & Hw).
  split; [reflexivity |]. split; [exact Hw |]. split.
  - intros Hon. rewrite Hon in *. split; [exact Hr | reflexivity].
  - intros Hoff. unfold dump_events. rewrite Hoff, app_nil_r.
    destruct w; reflexivity.
Qed.

Lemma dump_reads_each_register_once_witness :
  let w := world_of cold_interface [7; 8; 9] in
  firstn 4 (filter is_read
              (new_events w (after (lan8700DumpPhyReg lan8700_datasheet) w)))
  = [ReadPhyReg 0 0 7; ReadPhyReg 0 1 8; ReadPhyReg 0 2 9; ReadPhyReg 0 3 0].
Proof.
  cbv zeta.
  destruct (dump_reads_each_register_once lan8700_datasheet
              (world_of cold_interface [7; 8; 9])) as (_ & _ & Hon & _).
  destruct (Hon eq_refl) as [-> _]. reflexivity.
Defined.

(** ** Initialization: the wait for the end of the reset *)

Lemma first_clear (K : Lan8700Header) (w : World) (fuel : nat) :
  (forall k, (k < fuel)%nat -> reset_bit K w k <> 0) \/
  exists n, (n < fuel)%nat /\
    (forall k, (k < n)%nat -> reset_bit K w k <> 0) /\ reset_bit K w n = 0.
Proof.
  induction fuel as [| fuel [Hall | (n & Hn & Hset & Hclr)]].
  - left. intros k Hk. lia.
  - destruct (Z.eq_dec (reset_bit K w fuel) 0) as [Hz | Hnz].
    + right. exists fuel. auto.
    + left. intros k Hk.
      destruct (Nat.eq_dec k fuel) as [-> | Hne]; [exact Hnz |].
      apply Hall. lia.
  - right. exists n. split; [lia | auto].
Qed.

(** X2.  [lan8700Init] has no timeout: run for at most [fuel] reads of the
    wait loop, it does not return exactly when every one of these reads
    shows the reset bit still set.  A device that never clears the bit
    therefore keeps it waiting whatever the bound, and once a run completes, a
    larger bound gives the same result and the same final state. *)
Theorem init_returns_iff_reset_clears (K : Lan8700Header) (w : World) :
  (forall fuel,
     lan8700Init K fuel w = None <->
     forall k, (k < fuel)%nat -> reset_bit K w k <> 0) /\
  ((forall k, reset_bit K w k <> 0) ->
   forall fuel, lan8700Init K fuel w = None) /\
  (forall fuel fuel' r w',
     (fuel <= fuel')%nat ->
     lan8700Init K fuel w = Some (r, w') ->
     lan8700Init K fuel' w = Some (r, w')).
Proof.
  assert (Hiff : forall fuel,
     lan8700Init K fuel w = None <->
     forall k, (k < fuel)%nat -> reset_bit K w k <> 0).
  { intros fuel. split.
    - intros Hnone.
      destruct (first_clear K w fuel) as [Hall | (n & Hn & Hset & Hclr)];
        [exact Hall |].
      rewrite (lan8700Init_run K n fuel w Hn Hset Hclr) in Hnone.
      discriminate.
    - intros Hall.
      destruct (lan8700Init K fuel w) as [[r w'] |] eqn:E; [| reflexivity].
      apply lan8700Init_complete in E.
      destruct E as (n & Hn & _ & Hclr & _).
      exfalso. exact (Hall n Hn Hclr). }
  split; [exact Hiff |]. split.
  - intros Hnever fuel. apply Hiff. intros k _. apply Hnever.
  - intros fuel fuel' r w' Hle H.
    pose proof (lan8700Init_complete K fuel w r w' H)
      as (n & Hn & Hset & Hclr & -> & ->).
    apply lan8700Init_run; [lia | exact Hset | exact Hclr].
Qed.

(** ** Initialization: its calls to the transport *)

Lemma init_events_bus (K : Lan8700Header) (w : World) (n : nat) :
  filter is_bus (init_events K w n) =
  WritePhyReg (busAddress K (netif w)) (to_uint8 (LAN8700_PHY_REG_BMCR K))
    (to_uint16 (BMCR_RESET K))
  :: (map (read_of K w (LAN8700_PHY_REG_BMCR K)) (seq 0 (S n)) ++
      filter is_read (dump_events K w (S n)))
  ++ [WritePhyReg (busAddress K (netif w)) (to_uint8 (LAN8700_PHY_REG_IMR K))
        (to_uint16 (Z.lor (IMR_AN_COMPLETE K) (IMR_LINK_DOWN K)))].
Proof.
  unfold init_events. rewrite !filter_app.
  destruct (dump_events_reads K w (S n)) as (_ & -> & _).
  rewrite (forallb_filter_id is_bus (map _ _)).
  2:{ generalize (seq 0 (S n)). intros l.
      induction l as [| j l IH]; [reflexivity | exact IH]. }
  destruct (trace_info K), (extIntDriver (netif w));
    cbn [filter is_bus is_read is_write orb app];
    rewrite <- ?app_assoc; reflexivity.
Qed.

(** X3.  Every completed initialization talks to the transport in the same
    shape: the first access is the write of the reset bit to BMCR, the last
    one is the write of the interrupt mask to IMR, and everything in between
    is a read, one for each reply the transport has served.  No register is
    read before the reset is requested and nothing is written in between. *)
Theorem init_bus_traffic
    (K : Lan8700Header) (w : World) (fuel : nat) (r : error_t) (w' : World)
    (Hdone : lan8700Init K fuel w = Some (r, w')) :
  exists reads,
    filter is_bus (new_events w w') =
      WritePhyReg (busAddress K (netif w)) (to_uint8 (LAN8700_PHY_REG_BMCR K))
        (to_uint16 (BMCR_RESET K))
      :: reads ++
      [WritePhyReg (busAddress K (netif w)) (to_uint8 (LAN8700_PHY_REG_IMR K))
         (to_uint16 (Z.lor (IMR_AN_COMPLETE K) (IMR_LINK_DOWN K)))] /\
    forallb is_read reads = true /\
    mdioReads w' = (mdioReads w + List.length reads)%nat.
Proof.
  apply lan8700Init_complete in Hdone.
  destruct Hdone as (n & _ & _ & _ & _ & ->).
  rewrite (new_events_app w _ (init_events K w n)) by reflexivity.
  rewrite init_events_bus. eexists. split; [reflexivity |]. split.
  - rewrite forallb_app, reads_are_reads, forallb_filter. reflexivity.
  - cbn [mdioReads]. rewrite length_app, length_map, length_seq.
    destruct (dump_events_reads K w (S n)) as (-> & _).
    destruct (trace_debug K); [rewrite length_map, length_seq |];
      cbn [List.length]; lia.
Qed.

(** Without debug traces, on a device that clears the reset bit on the
    second read: a write, two reads, a write. *)
Lemma init_bus_traffic_witness :
  let K := mkHeader 0 0 1 29 30 31 32768 4 64 16 28 4 20 8 24
             false false false in
  let w := world_of cold_interface [32768; 0] in
  exists w',
    lan8700Init K 2 w = Some (NO_ERROR, w') /\
    exists reads,
      filter is_bus (new_events w w') =
        WritePhyReg 0 0 32768 :: reads ++ [WritePhyReg 0 30 80] /\
      forallb is_read reads = true /\
      mdioReads w' = (0 + List.length reads)%nat.
Proof.
  intros K w. eexists. split.
  - vm_compute. reflexivity.
  - refine (init_bus_traffic K w 2%nat NO_ERROR _ _). vm_compute. reflexivity.
Defined.

(** ** The three ways through the event handler *)

Lemma handler_netif (K : Lan8700Header) (w : World) :
  let w' := after (lan8700EventHandler K) w in
  (~ relevant_irq K (reply w 0) /\ netif w' = netif w /\
   mdioReads w' = (1 + mdioReads w)%nat) \/
  (relevant_irq K (reply w 0) /\ link_status K (reply w 2) = false /\
   netif w' = set_linkState false (netif w) /\
   mdioReads w' = (3 + mdioReads w)%nat) \/
  (relevant_irq K (reply w 0) /\ link_status K (reply w 2) = true /\
   netif w' = set_linkState true (negotiated K (reply w 3) (netif w)) /\
   mdioReads w' = (4 + mdioReads w)%nat).
Proof.
  cbv zeta. unfold after.
  destruct (relevant_irq_dec K (reply w 0)) as [Hirq | Hidle].
  - destruct (link_status K (reply w 2)) eqn:Hup.
    + right. right. rewrite (handler_up K w Hirq Hup). auto.
    + right. left. rewrite (handler_down K w Hirq Hup). auto.
  - left. rewrite (handler_idle K w Hidle). auto.
Qed.

(** ** The pending-event flag *)

(** X4.  The driver never clears the pending-event flag.  A flag that is set
    stays set across a tick, an event, either interrupt switch and every
    completed initialization; the event handler and the interrupt switches
    do not write the flag at all, and a completed initialization leaves it
    set whatever it was. *)
Theorem pending_event_never_cleared
    (K : Lan8700Header) (w : World)
    (Hset : phyEvent (netif w) = true) :
  phyEvent (netif (after (lan8700Tick K) w)) = true /\
  phyEvent (netif (after (lan8700EventHandler K) w)) = true /\
  phyEvent (netif (after lan8700EnableIrq w)) = true /\
  phyEvent (netif (after lan8700DisableIrq w)) = true /\
  (forall fuel r w',
     lan8700Init K fuel w = Some (r, w') -> phyEvent (netif w') = true).
Proof.
  split; [| split; [| split; [| split]]].
  - unfold after. destruct (extIntDriver (netif w)) as [d |] eqn:Hd.
    + rewrite (tick_irq_run K w d Hd). exact Hset.
    + destruct (bool_dec (link_status K (reply w 0)) (linkState (netif w)))
        as [Heq | Hne].
      * rewrite (tick_poll_unchanged K w Hd Heq). exact Hset.
      * rewrite (tick_poll_changed K w Hd Hne). reflexivity.
  - destruct (handler_netif K w)
      as [(_ & -> & _) | [(_ & _ & -> & _) | (_ & _ & -> & _)]];
      cbn [set_linkState phyEvent]; try exact Hset.
    destruct (negotiated_frame K (reply w 3) (netif w))
      as (_ & _ & _ & -> & _).
    exact Hset.
  - destruct w as [i m n l]. revert Hset. run_drv.
    destruct (extIntDriver i); intros H; exact H.
  - destruct w as [i m n l]. revert Hset. run_drv.
    destruct (extIntDriver i); intros H; exact H.
  - intros fuel r w' H. apply lan8700Init_complete in H.
    destruct H as (n & _ & _ & _ & _ & ->). reflexivity.
Qed.

(** An event pending since the tick survives the event handler. *)
Lemma pending_event_never_cleared_witness :
  let i := mkNetInterface 0 None false NIC_LINK_SPEED_UNKNOWN
             NIC_UNKNOWN_DUPLEX_MODE true in
  phyEvent
    (netif (after (lan8700EventHandler lan8700_datasheet)
              (world_of i [64; 0; 4; 24]))) = true.
Proof.
  cbv zeta.
  apply (pending_event_never_cleared lan8700_datasheet
           (world_of (mkNetInterface 0 None false NIC_LINK_SPEED_UNKNOWN
                        NIC_UNKNOWN_DUPLEX_MODE true) [64; 0; 4; 24])).
  reflexivity.
Defined.

(** ** Polling and the event handler together *)

(** X5.  The tick compares with the stored link state but never updates it,
    so it does not detect edges on its own: while the event handler has not
    run, every tick that reads a link status different from the stored one
    signals the host again.  Two such ticks in a row make two reads, two stores
    of the flag and two [osSetEvent] calls, and the stored link state is
    still the old one. *)
Theorem tick_signals_again_until_handled
    (K : Lan8700Header) (w : World)
    (Hpoll : extIntDriver (netif w) = None)
    (Hfirst : link_status K (reply w 0) <> linkState (netif w))
    (Hsecond : link_status K (reply w 1) <> linkState (netif w)) :
  let w2 := after (lan8700Tick K) (after (lan8700Tick K) w) in
  new_events w w2 =
    [read_of K w (LAN8700_PHY_REG_BMSR K) 0; StorePhyEvent true; OsSetEvent;
     read_of K w (LAN8700_PHY_REG_BMSR K) 1; StorePhyEvent true; OsSetEvent]
  /\
  linkState (netif w2) = linkState (netif w) /\
  phyEvent (netif w2) = true.
Proof.
  cbv zeta.
  assert (H1 : after (lan8700Tick K) w =
               mkWorld (set_phyEvent true (netif w)) (mdio w)
                 (S (mdioReads w))
                 (events w ++
                  [read_of K w (LAN8700_PHY_REG_BMSR K) 0; StorePhyEvent true;
                   OsSetEvent]))
    by (unfold after; rewrite (tick_poll_changed K w Hpoll Hfirst);
        reflexivity).
  rewrite H1. unfold after.
  rewrite tick_poll_changed; [| exact Hpoll | exact Hsecond].
  cbn [snd netif mdio mdioReads events]. repeat split.
  apply new_events_app. rewrite <- app_assoc. reflexivity.
Qed.

Lemma tick_signals_again_until_handled_witness :
  let w := world_of cold_interface [4; 4] in
  new_events w
    (after (lan8700Tick lan8700_datasheet)
       (after (lan8700Tick lan8700_datasheet) w))
  = [ReadPhyReg 0 1 4; StorePhyEvent true; OsSetEvent;
     ReadPhyReg 0 1 4; StorePhyEvent true; OsSetEvent].
Proof.
  cbv zeta.
  destruct (tick_signals_again_until_handled lan8700_datasheet
              (world_of cold_interface [4; 4])) as (Hev & _).
  - reflexivity.
  - vm_compute. discriminate.
  - vm_compute. discriminate.
  - rewrite Hev. reflexivity.
Defined.

(** X6.  Once the event handler has processed a relevant interrupt, a tick
    that reads the link status the handler decided on is silent: it makes
    its one read, signals nothing and leaves the interface as the handler
    left it. *)
Theorem tick_after_handler_is_silent
    (K : Lan8700Header) (w : World)
    (Hpoll : extIntDriver (netif w) = None)
    (Hirq : relevant_irq K (reply w 0))
    (Hsame :
       link_status K (reply (after (lan8700EventHandler K) w) 0) =
       link_status K (reply w 2)) :
  let w1 := after (lan8700EventHandler K) w in
  let w2 := after (lan8700Tick K) w1 in
  netif w2 = netif w1 /\
  new_events w1 w2 = [read_of K w1 (LAN8700_PHY_REG_BMSR K) 0].
Proof.
  cbv zeta.
  assert (Hstate : extIntDriver (netif (after (lan8700EventHandler K) w)) = None
                   /\ linkState (netif (after (lan8700EventHandler K) w)) =
                      link_status K (reply w 2)).
  { destruct (handler_netif K w)
      as [(Hidle & _) | [(_ & Hl & -> & _) | (_ & Hl & -> & _)]].
    - contradiction.
    - rewrite Hl. split; [exact Hpoll | reflexivity].
    - rewrite Hl. cbn [set_linkState extIntDriver linkState].
      destruct (negotiated_frame K (reply w 3) (netif w))
        as (_ & -> & _).
      split; [exact Hpoll | reflexivity]. }
  destruct Hstate as [Hpoll1 Hlink1]. rewrite <- Hsame in Hlink1.
  remember (after (lan8700EventHandler K) w) as w1 eqn:Ew1. clear Ew1 Hsame.
  unfold after.
  rewrite (tick_poll_unchanged K w1 Hpoll1 (eq_sym Hlink1)). cbn [snd netif].
  split; [reflexivity |]. apply new_events_app. reflexivity.
Qed.

Lemma tick_after_handler_is_silent_witness :
  let w := world_of cold_interface [64; 0; 4; 24; 4] in
  let w1 := after (lan8700EventHandler lan8700_datasheet) w in
  new_events w1 (after (lan8700Tick lan8700_datasheet) w1) =
  [ReadPhyReg 0 1 4].
Proof.
  cbv zeta.
  destruct (tick_after_handler_is_silent lan8700_datasheet
              (world_of cold_interface [64; 0; 4; 24; 4])) as (_ & Hev).
  - reflexivity.
  - left. vm_compute. discriminate.
  - reflexivity.
  - rewrite Hev. reflexivity.
Defined.

(** ** What the event handler leaves alone *)

(** X7.  The event handler never writes the configured bus address, the
    interrupt line driver or the pending-event flag, whatever the registers
    hold.  When it finds the link down it stores the link state as down and
    nothing else: the speed and duplex mode of the last negotiation stay in
    the interface as they were. *)
Theorem handler_keeps_configuration (K : Lan8700Header) (w : World) :
  let w' := after (lan8700EventHandler K) w in
  phyAddr (netif w') = phyAddr (netif w) /\
  extIntDriver (netif w') = extIntDriver (netif w) /\
  phyEvent (netif w') = phyEvent (netif w) /\
  (relevant_irq K (reply w 0) -> link_status K (reply w 2) = false ->
     linkState (netif w') = false /\
     linkSpeed (netif w') = linkSpeed (netif w) /\
     duplexMode (netif w') = duplexMode (netif w)).
Proof.
  cbv zeta.
  destruct (negotiated_frame K (reply w 3) (netif w))
    as (Ha & Hd & _ & He & _).
  destruct (handler_netif K w)
    as [(Hidle & -> & _) | [(_ & Hl & -> & _) | (_ & Hl & -> & _)]];
    cbn [set_linkState phyAddr extIntDriver phyEvent linkState linkSpeed
         duplexMode]; repeat split; try assumption; try contradiction;
    congruence.
Qed.

(** ** Calls to the transport by the tick and the event handler *)

Lemma switch_log_cases (K : Lan8700Header) (v : Z) (i : NetInterface) :
  switch_log K v i = [] \/
  switch_log K v i = [TraceWarning "Invalid Duplex mode\r\n"].
Proof.
  unfold switch_log, switch_hcdspeed. run_drv.
  repeat match goal with
  | |- context [if ?b then _ else _] => destruct b
  end; auto.
Qed.

(** X8.  Neither the tick nor the event handler ever writes a PHY register.
    The tick reads one register when it polls and none when the interface is
    interrupt driven; the event handler reads one register when the interrupt
    is not a relevant one, three when it finds the link down and four when it
    finds the link up. *)
Theorem tick_and_handler_only_read (K : Lan8700Header) (w : World) :
  let wt := after (lan8700Tick K) w in
  let wh := after (lan8700EventHandler K) w in
  count is_write (new_events w wt) = 0%nat /\
  count is_read (new_events w wt) =
    match extIntDriver (netif w) with None => 1%nat | Some _ => 0%nat end /\
  count is_write (new_events w wh) = 0%nat /\
  (~ relevant_irq K (reply w 0) ->
     count is_read (new_events w wh) = 1%nat) /\
  (relevant_irq K (reply w 0) -> link_status K (reply w 2) = false ->
     count is_read (new_events w wh) = 3%nat) /\
  (relevant_irq K (reply w 0) -> link_status K (reply w 2) = true ->
     count is_read (new_events w wh) = 4%nat).
Proof.
  cbv zeta. unfold after.
  assert (Htick :
    count is_write (new_events w (snd (lan8700Tick K w))) = 0%nat /\
    count is_read (new_events w (snd (lan8700Tick K w))) =
      match extIntDriver (netif w) with None => 1%nat | Some _ => 0%nat end).
  { destruct (extIntDriver (netif w)) as [d |] eqn:Hd.
    - rewrite (tick_irq_run K w d Hd). cbn [snd].
      rewrite (new_events_app w w []) by (rewrite app_nil_r; reflexivity).
      split; reflexivity.
    - destruct (bool_dec (link_status K (reply w 0)) (linkState (netif w)))
        as [Heq | Hne].
      + rewrite (tick_poll_unchanged K w Hd Heq).
        erewrite new_events_app by (cbn [snd events]; reflexivity).
        split; reflexivity.
      + rewrite (tick_poll_changed K w Hd Hne).
        erewrite new_events_app by (cbn [snd events]; reflexivity).
        split; reflexivity. }
  destruct Htick as [Htw Htr]. split; [exact Htw |]. split; [exact Htr |].
  destruct (relevant_irq_dec K (reply w 0)) as [Hirq | Hidle].
  - destruct (link_status K (reply w 2)) eqn:Hup.
    + rewrite (handler_up K w Hirq Hup).
      erewrite new_events_app by (cbn [snd events]; reflexivity).
      rewrite !count_app.
      destruct (switch_log_cases K (reply w 3) (netif w)) as [-> | ->];
        repeat split; try reflexivity; try contradiction; discriminate.
    + rewrite (handler_down K w Hirq Hup).
      erewrite new_events_app by (cbn [snd events]; reflexivity).
      repeat split; try reflexivity; try contradiction; discriminate.
  - rewrite (handler_idle K w Hidle).
    erewrite new_events_app by (cbn [snd events]; reflexivity).
    repeat split; try reflexivity; contradiction.
Qed.

(** ** The mode field *)

Lemma negotiated_mode_only (K : Lan8700Header) (v v' : Z) (i : NetInterface) :
  hcdspeed K v = hcdspeed K v' ->
  negotiated K v i = negotiated K v' i /\
  switch_log K v i = switch_log K v' i.
Proof.
  unfold hcdspeed, negotiated, switch_log, switch_hcdspeed.
  intros ->. split; reflexivity.
Qed.

(** X9.  Of the mode register the event handler uses the bits under
    [PSCSR_HCDSPEED_MASK] and nothing else: whatever value [x] the register
    returns, if it agrees with another value under the mask the handler ends
    with the same interface. *)
Theorem handler_reads_mode_under_mask_only
    (K : Lan8700Header) (w : World) (x : Z)
    (Hsame : hcdspeed K (to_uint16 x) = hcdspeed K (reply w 3)) :
  netif (after (lan8700EventHandler K) (with_reply 3 x w)) =
  netif (after (lan8700EventHandler K) w).
Proof.
  assert (Hx0 : reply (with_reply 3 x w) 0 = reply w 0)
    by (apply reply_with_reply_other; lia).
  assert (Hx2 : reply (with_reply 3 x w) 2 = reply w 2)
    by (apply reply_with_reply_other; lia).
  unfold after.
  destruct (relevant_irq_dec K (reply w 0)) as [Hirq | Hidle].
  - destruct (link_status K (reply w 2)) eqn:Hup.
    + rewrite (handler_up K w Hirq Hup).
      rewrite (handler_up K (with_reply 3 x w))
        by (rewrite ?Hx0, ?Hx2; assumption).
      cbn [snd netif]. rewrite reply_with_reply_same.
      change (netif (with_reply 3 x w)) with (netif w).
      destruct (negotiated_mode_only K _ _ (netif w) Hsame) as [-> _].
      reflexivity.
    + rewrite (handler_down K w Hirq Hup).
      rewrite (handler_down K (with_reply 3 x w))
        by (rewrite ?Hx0, ?Hx2; assumption).
      reflexivity.
  - rewrite (handler_idle K w Hidle).
    rewrite (handler_idle K (with_reply 3 x w))
      by (rewrite ?Hx0; assumption).
    reflexivity.
Qed.

(** On the data sheet the mode field is bits 4..2: the values 24 and 0x1039
    (bits 12, 5, 4, 3 and 0) both decode to 100BASE-TX full duplex. *)
Lemma handler_reads_mode_under_mask_only_witness :
  netif (after (lan8700EventHandler lan8700_datasheet)
           (with_reply 3 4153 (world_of cold_interface [64; 0; 4; 24]))) =
  mkNetInterface 0 None true NIC_LINK_SPEED_100MBPS NIC_FULL_DUPLEX_MODE false.
Proof.
  rewrite (handler_reads_mode_under_mask_only lan8700_datasheet
             (world_of cold_interface [64; 0; 4; 24]) 4153).
  - reflexivity.
  - reflexivity.
Defined.

(** ** One bus address for all accesses *)

Lemma init_events_bus_to (K : Lan8700Header) (w : World) (n : nat) :
  Forall (bus_to (busAddress K (netif w))) (init_events K w n).
Proof.
  unfold init_events, dump_events. rewrite !Forall_app.
  repeat split.
  - destruct (trace_info K); repeat constructor.
  - destruct (extIntDriver (netif w)); repeat constructor.
  - repeat constructor.
  - apply Forall_forall. intros e He. apply in_map_iff in He.
    destruct He as (j & <- & _). reflexivity.
  - destruct (trace_debug K); [| constructor].
    apply Forall_app. split; [| repeat constructor].
    apply Forall_forall. intros e He. apply in_flat_map in He.
    destruct He as (j & _ & [<- | [<- | []]]); reflexivity.
  - repeat constructor.
Qed.

(** X10.  Within one call every access to the transport goes to one and the
    same bus address, the one resolved from the interface at the start of
    the call: this holds for the tick, the event handler and every completed
    initialization, with all the reads of the wait loop and of the register
    dump.  That address is an unsigned byte, and it lies in 0..31 as soon as
    the default address does. *)
Theorem bus_accesses_use_one_address (K : Lan8700Header) (w : World) :
  let a := busAddress K (netif w) in
  Forall (bus_to a) (new_events w (after (lan8700Tick K) w)) /\
  Forall (bus_to a) (new_events w (after (lan8700EventHandler K) w)) /\
  (forall fuel r w',
     lan8700Init K fuel w = Some (r, w') ->
     Forall (bus_to a) (new_events w w')) /\
  0 <= a <= 255 /\
  (0 <= phyAddr (netif w) -> 0 <= LAN8700_PHY_ADDR K <= 31 -> 0 <= a <= 31).
Proof.
  cbv zeta. unfold after. split; [| split; [| split; [| split]]].
  - destruct (extIntDriver (netif w)) as [d |] eqn:Hd.
    + rewrite (tick_irq_run K w d Hd). cbn [snd].
      rewrite (new_events_app w w []) by (rewrite app_nil_r; reflexivity).
      constructor.
    + destruct (bool_dec (link_status K (reply w 0)) (linkState (netif w)))
        as [Heq | Hne].
      * rewrite (tick_poll_unchanged K w Hd Heq).
        erewrite new_events_app by (cbn [snd events]; reflexivity).
        repeat constructor.
      * rewrite (tick_poll_changed K w Hd Hne).
        erewrite new_events_app by (cbn [snd events]; reflexivity).
        repeat constructor.
  - destruct (relevant_irq_dec K (reply w 0)) as [Hirq | Hidle].
    + destruct (link_status K (reply w 2)) eqn:Hup.
      * rewrite (handler_up K w Hirq Hup).
        erewrite new_events_app by (cbn [snd events]; reflexivity).
        rewrite !Forall_app.
        destruct (switch_log_cases K (reply w 3) (netif w)) as [-> | ->];
          repeat split; repeat constructor.
      * rewrite (handler_down K w Hirq Hup).
        erewrite new_events_app by (cbn [snd events]; reflexivity).
        repeat constructor.
    + rewrite (handler_idle K w Hidle).
      erewrite new_events_app by (cbn [snd events]; reflexivity).
      repeat constructor.
  - intros fuel r w' H. apply lan8700Init_complete in H.
    destruct H as (n & _ & _ & _ & _ & ->).
    rewrite (new_events_app w _ (init_events K w n)) by reflexivity.
    apply init_events_bus_to.
  - unfold busAddress, to_uint8. change (2 ^ 8) with 256.
    destruct (phyAddr (netif w) <? 32).
    + pose proof (Z.mod_pos_bound (phyAddr (netif w)) 256). lia.
    + pose proof (Z.mod_pos_bound (LAN8700_PHY_ADDR K) 256). lia.
  - intros Hcfg Hdef. unfold busAddress, to_uint8. change (2 ^ 8) with 256.
    destruct (Z.ltb_spec (phyAddr (netif w)) 32);
      rewrite Z.mod_small by lia; lia.
Qed.

(** ** Interrupt line *)

(** X11.  [lan8700EnableIrq] and [lan8700DisableIrq] do nothing but call the
    external interrupt line driver, and only when one is configured: they
    never access the transport and never change the interface.  Disabling
    and enabling around a critical section therefore amounts to the two
    calls to the line driver, in that order, or to nothing at all. *)
Theorem irq_switches_only_call_line_driver (w : World) :
  let line e :=
    match extIntDriver (netif w) with Some _ => [e] | None => [] end in
  lan8700EnableIrq w =
    (tt, mkWorld (netif w) (mdio w) (mdioReads w)
           (events w ++ line ExtIntEnableIrq)) /\
  lan8700DisableIrq w =
    (tt, mkWorld (netif w) (mdio w) (mdioReads w)
           (events w ++ line ExtIntDisableIrq)) /\
  after lan8700EnableIrq (after lan8700DisableIrq w) =
    mkWorld (netif w) (mdio w) (mdioReads w)
      (events w ++ line ExtIntDisableIrq ++ line ExtIntEnableIrq).
Proof.
  cbv zeta. destruct w as [i m n l]. run_drv.
  destruct (extIntDriver i) eqn:Hd; cbn [app]; rewrite ?Hd;
    rewrite ?app_nil_r, <- ?app_assoc; repeat split.
Qed.

(** ** The first tick after the initialization *)

(** X12.  The initialization does not sample the link, so on an interface
    without interrupt line the first tick after it compares the status
    register with the link state stored before the initialization: it
    signals the host exactly when the link-status bit it reads differs from
    that state, and the state is still unchanged afterwards. *)
Theorem first_tick_after_init
    (K : Lan8700Header) (w : World) (fuel : nat) (r : error_t) (w1 : World)
    (Hpoll : extIntDriver (netif w) = None)
    (Hdone : lan8700Init K fuel w = Some (r, w1)) :
  let w2 := after (lan8700Tick K) w1 in
  (In OsSetEvent (new_events w1 w2) <->
   link_status K (reply w1 0) <> linkState (netif w)) /\
  count is_read (new_events w1 w2) = 1%nat /\
  linkState (netif w2) = linkState (netif w) /\
  phyEvent (netif w2) = true.
Proof.
  cbv zeta. apply lan8700Init_complete in Hdone.
  destruct Hdone as (n & _ & _ & _ & _ & Hw1).
  assert (Hpoll1 : extIntDriver (netif w1) = None)
    by (rewrite Hw1; exact Hpoll).
  assert (Hlink1 : linkState (netif w1) = linkState (netif w))
    by (rewrite Hw1; reflexivity).
  assert (Hflag1 : phyEvent (netif w1) = true)
    by (rewrite Hw1; reflexivity).
  clear Hw1. rewrite <- Hlink1. unfold after.
  destruct (bool_dec (link_status K (reply w1 0)) (linkState (netif w1)))
    as [Heq | Hne].
  - rewrite (tick_poll_unchanged K w1 Hpoll1 Heq).
    erewrite new_events_app by (cbn [snd events]; reflexivity).
    cbn [snd netif]. repeat split; try tauto.
    intros [H | []]. discriminate H.
  - rewrite (tick_poll_changed K w1 Hpoll1 Hne).
    erewrite new_events_app by (cbn [snd events]; reflexivity).
    cbn [snd netif]. repeat split; try tauto.
    intros _. right. right. left. reflexivity.
Qed.

(** A cold start on a device with the link already up: the reset bit clears
    at once, the dump reads 32 registers, and the first tick, which reads
    the status register with the link-status bit set, signals the host. *)
Lemma first_tick_after_init_witness :
  let w := world_of cold_interface (repeat 0 33 ++ [4]) in
  exists w1,
    lan8700Init lan8700_datasheet 1 w = Some (NO_ERROR, w1) /\
    In OsSetEvent (new_events w1 (after (lan8700Tick lan8700_datasheet) w1)).
Proof.
  intros w. eexists. split.
  - vm_compute. reflexivity.
  - refine (proj2 (proj1 (first_tick_after_init lan8700_datasheet w 1%nat
                            NO_ERROR _ eq_refl _)) _).
    + vm_compute. reflexivity.
    + vm_compute. discriminate.
Defined.
